(** * financial-tracker: the transaction normalization and categorization engine

    A shallow embedding of [financial_analyzer.py]: the CSV adapters
    ([CSVProcessor] and its three subclasses), the merchant normalizer
    ([extract_merchant_name]), the category classifier
    ([categorize_transaction_with_amount], [prompt_user_for_category],
    [extract_key_term_for_config], [update_config_with_new_keyword]) and the
    orchestrator ([load_and_process_data]).  The database export is not
    part of it.

    Conventions of the embedding.
    - A Python [str] is a Rocq [string]; the case and whitespace tables are
      the ASCII ones, characters above 127 are uncased symbols.
    - A Python [float] (and a pandas float64 cell) is an IEEE-754 binary64
      value, [spec_float] with precision 53 and maximal exponent 1024;
      a missing pandas value is NaN.
    - The analyzer object is a record of mutable state (the rule set) living
      in a [World] next to the terminal input still to come, the outcomes of
      the file writes still to come and the content of the rule store file.
      [print] has no observable effect here and is left out. *)

From Stdlib Require Import ZArith NArith String Ascii List Lia Bool.
From Stdlib Require Import Floats.SpecFloat.
From stdpp Require Import base list strings.

Open Scope string_scope.

(** ** Python string primitives *)

Module PyStr.

Definition code (c : ascii) : N := N_of_ascii c.

Definition between (lo hi : N) (c : ascii) : bool :=
  (lo <=? code c)%N && (code c <=? hi)%N.

(** [c.isspace()]: tab, line feed, vertical tab, form feed, carriage return,
    the four separators 0x1c-0x1f and the blank. *)
Definition is_space (c : ascii) : bool :=
  between 9 13 c || between 28 32 c.

(** [c.isdigit()], [c.isupper()], [c.islower()] on an ASCII character. *)
Definition is_digit (c : ascii) : bool := between 48 57 c.
Definition is_upper (c : ascii) : bool := between 65 90 c.
Definition is_lower (c : ascii) : bool := between 97 122 c.
Definition is_cased (c : ascii) : bool := is_upper c || is_lower c.

Definition lower_char (c : ascii) : ascii :=
  if is_upper c then ascii_of_N (code c + 32) else c.
Definition upper_char (c : ascii) : ascii :=
  if is_lower c then ascii_of_N (code c - 32) else c.

(** [s.lower()] *)
Fixpoint lower (s : string) : string :=
  match s with
  | EmptyString => EmptyString
  | String c s' => String (lower_char c) (lower s')
  end.

(** [len(s)] *)
Definition len (s : string) : nat := String.length s.

(** [s == ""] *)
Definition is_empty (s : string) : bool :=
  match s with EmptyString => true | String _ _ => false end.

(** [s.startswith(p)] *)
Fixpoint startswith (s p : string) {struct p} : bool :=
  match p, s with
  | EmptyString, _ => true
  | String _ _, EmptyString => false
  | String b p', String a s' => Ascii.eqb a b && startswith s' p'
  end.

(** [needle in hay] on strings: [needle] occurs as a contiguous substring. *)
Fixpoint py_in (needle hay : string) : bool :=
  startswith hay needle
  || match hay with
     | EmptyString => false
     | String _ hay' => py_in needle hay'
     end.

(** [s[n:]] and [s[:n]] *)
Fixpoint drop (n : nat) (s : string) : string :=
  match n, s with
  | O, _ => s
  | S _, EmptyString => EmptyString
  | S n', String _ s' => drop n' s'
  end.

Fixpoint take (n : nat) (s : string) : string :=
  match n, s with
  | O, _ => EmptyString
  | S _, EmptyString => EmptyString
  | S n', String c s' => String c (take n' s')
  end.

(** [s.lstrip()], [s.rstrip()], [s.strip()] *)
Fixpoint lstrip (s : string) : string :=
  match s with
  | EmptyString => EmptyString
  | String c s' => if is_space c then lstrip s' else s
  end.

Fixpoint rstrip (s : string) : string :=
  match s with
  | EmptyString => EmptyString
  | String c s' =>
      let r := rstrip s' in
      if is_space c && is_empty r then EmptyString else String c r
  end.

Definition strip (s : string) : string := rstrip (lstrip s).

(** [s.split()]: the maximal runs of non-blank characters, in order.
    [cur] is the run being read. *)
Fixpoint split_from (cur s : string) : list string :=
  match s with
  | EmptyString => if is_empty cur then [] else [cur]
  | String c s' =>
      if is_space c
      then (if is_empty cur then split_from EmptyString s'
            else cur :: split_from EmptyString s')
      else split_from (cur ++ String c EmptyString) s'
  end.

Definition split (s : string) : list string := split_from EmptyString s.

(** [sep.join(l)] *)
Fixpoint join (sep : string) (l : list string) : string :=
  match l with
  | [] => EmptyString
  | [x] => x
  | x :: rest => x ++ sep ++ join sep rest
  end.

(** [s.title()]: a cased character is upper-cased when the character before
    it is not cased and lower-cased when it is. *)
Fixpoint title_from (prev_cased : bool) (s : string) : string :=
  match s with
  | EmptyString => EmptyString
  | String c s' =>
      String (if prev_cased then lower_char c else upper_char c)
             (title_from (is_cased c) s')
  end.

Definition title (s : string) : string := title_from false s.

(** [any(f(ch) for ch in s)] and [all(f(ch) for ch in s)] *)
Fixpoint any_char (f : ascii -> bool) (s : string) : bool :=
  match s with
  | EmptyString => false
  | String c s' => f c || any_char f s'
  end.

Fixpoint all_char (f : ascii -> bool) (s : string) : bool :=
  match s with
  | EmptyString => true
  | String c s' => f c && all_char f s'
  end.

(** [s.isdigit()]: at least one character and all of them digits. *)
Definition isdigit (s : string) : bool :=
  negb (is_empty s) && all_char is_digit s.

(** [s.isupper()]: at least one cased character and none of them lower. *)
Definition isupper (s : string) : bool :=
  any_char is_cased s && negb (any_char is_lower s).

(** [not l] for a list. *)
Definition is_empty_list {A} (l : list A) : bool :=
  match l with [] => true | _ :: _ => false end.

(** [x in l] for a list of strings. *)
Definition in_list (x : string) (l : list string) : bool :=
  existsb (String.eqb x) l.

(** [int(s)] on an already stripped string: an optional sign, then decimal
    digits that single underscores may separate.  [None] is ValueError. *)
Definition digit_val (c : ascii) : Z := Z.of_N (code c) - 48.

Fixpoint int_digits (acc : Z) (after_digit : bool) (s : string) : option Z :=
  match s with
  | EmptyString => if after_digit then Some acc else None
  | String c s' =>
      if is_digit c then int_digits (10 * acc + digit_val c) true s'
      else if Ascii.eqb c "_" && after_digit
           then match s' with
                | String d _ => if is_digit d then int_digits acc false s' else None
                | EmptyString => None
                end
           else None
  end.

Definition py_int (s : string) : option Z :=
  match s with
  | String "+" s' => int_digits 0 false s'
  | String "-" s' => option_map Z.opp (int_digits 0 false s')
  | _ => int_digits 0 false s
  end.

End PyStr.

Import PyStr.

(** ** Python floats: IEEE-754 binary64 *)

Module PyFloat.

Definition float : Type := spec_float.
Definition prec : Z := 53.
Definition emax : Z := 1024.

(** The float nearest to the integer [z]: what Python compares or multiplies
    with when one operand is an [int]. *)
Definition of_Z (z : Z) : float := binary_normalize prec emax z 0 false.

(** The float nearest to [m * 2^e]. *)
Definition of_scaled (m e : Z) : float := binary_normalize prec emax m e false.

Definition add (x y : float) : float := SFadd prec emax x y.
Definition mul (x y : float) : float := SFmul prec emax x y.

(** [x > y]; false as soon as one side is NaN. *)
Definition gt (x y : float) : bool := SFltb y x.

Definition is_nan (x : float) : bool :=
  match x with S754_nan => true | _ => false end.

End PyFloat.

Import PyFloat(float).

(** ** Results, exceptions and the state of a run *)

Inductive exn : Type :=
| EOFError            (* [input()] at the end of the terminal input *)
| KeyError (k : string)
| ValueError
| TypeError
| NotImplementedError
| OSError.              (* a failed file write *)

Inductive result (A : Type) : Type :=
| Ok (a : A)
| Raise (e : exn).
Arguments Ok {A} a.
Arguments Raise {A} e.

#[global] Instance result_ret : MRet result := fun A (a : A) => Ok a.
#[global] Instance result_bind : MBind result := fun A B (k : A -> result B) (m : result A) =>
  match m with
  | Ok a => k a
  | Raise e => Raise e
  end.

(** The rule set: [categorization_config].  [categories] is a Python dict,
    whose iteration order is insertion order, so it is kept as the list of
    its items; [default_category] may be absent from the document. *)
Record RuleSet : Type := mkRuleSet {
  categories : list (string * list string);
  default_category : option string;
}.

(** What [input()] meets: a line typed at the terminal, or Ctrl-C. *)
Inductive tty_event : Type :=
| Line (s : string)
| Interrupt.

(** How an attempt to rewrite the rule store file ends: written in full, or
    an exception, leaving some residue (possibly nothing readable) behind. *)
Inductive write_outcome : Type :=
| WriteOk
| WriteFails (residue : option RuleSet).

Record World : Type := mkWorld {
  categorization_config : RuleSet;
  stdin : list tty_event;
  fs_outcomes : list write_outcome;   (* exhausted: writes succeed *)
  config_file : option RuleSet;
}.

Definition set_config (cfg : RuleSet) (w : World) : World :=
  mkWorld cfg (stdin w) (fs_outcomes w) (config_file w).
Definition set_stdin (evs : list tty_event) (w : World) : World :=
  mkWorld (categorization_config w) evs (fs_outcomes w) (config_file w).

(** A method of the analyzer: reads and updates the world, returns or raises. *)
Definition M (A : Type) : Type := World -> result A * World.

#[global] Instance M_ret : MRet M := fun A (a : A) w => (Ok a, w).
#[global] Instance M_bind : MBind M := fun A B (k : A -> M B) (m : M A) w =>
  match m w with
  | (Ok a, w') => k a w'
  | (Raise e, w') => (Raise e, w')
  end.

(** [self.categorization_config] *)
Definition get_config : M RuleSet := fun w => (Ok (categorization_config w), w).

(** ** Python dicts kept as item lists *)

Section Dict.
Context {V : Type}.

(** [k in d] *)
Fixpoint dict_mem (k : string) (d : list (string * V)) : bool :=
  match d with
  | [] => false
  | (k', _) :: d' => String.eqb k k' || dict_mem k d'
  end.

(** [d[k]], [None] when the key is absent (KeyError). *)
Fixpoint dict_get (k : string) (d : list (string * V)) : option V :=
  match d with
  | [] => None
  | (k', v) :: d' => if String.eqb k k' then Some v else dict_get k d'
  end.

(** [d[k] = v]: in place when the key exists, at the end otherwise. *)
Fixpoint dict_set (k : string) (v : V) (d : list (string * V)) : list (string * V) :=
  match d with
  | [] => [(k, v)]
  | (k', v') :: d' =>
      if String.eqb k k' then (k', v) :: d' else (k', v') :: dict_set k v d'
  end.
End Dict.

(** ** The category classifier: [FinancialAnalyzer] *)

Definition AVAILABLE_CATEGORIES : list string :=
  ["Food"; "Travel"; "Shopping"; "Utilities"; "Healthcare"; "Entertainment";
   "Services"; "Payment"].

(** What opening and parsing the rule store file at start-up can give. *)
Inductive load_outcome : Type :=
| Loaded (config : RuleSet)
| FileNotFound
| YAMLError.

Definition load_categorization_config (o : load_outcome) : RuleSet :=
  match o with
  | Loaded config => config
  | FileNotFound =>
      mkRuleSet [("Food", ["restaurant"; "cafe"; "food"]);
                 ("Transportation", ["uber"; "lyft"; "gas"; "parking"]);
                 ("Shopping", ["amazon"; "store"]);
                 ("Other", [])]
                (Some "Other")
  | YAMLError => mkRuleSet [("Other", [])] (Some "Other")
  end.

(** *** [extract_key_term_for_config] *)

(** The [for prefix in prefixes_to_remove] loop with its [break]: the first
    prefix the lower-cased description starts with is cut off. *)
Fixpoint remove_first_prefix (prefixes : list string) (clean_desc : string) : string :=
  match prefixes with
  | [] => clean_desc
  | prefix :: rest =>
      if startswith (lower clean_desc) (lower prefix)
      then strip (drop (len prefix) clean_desc)
      else remove_first_prefix rest clean_desc
  end.

Definition skip_words : list string := ["inc"; "llc"; "com"; "www"; "phone"; "number"].

(** The [for word in words[:3]] loop; it stops at two meaningful words. *)
Fixpoint meaningful_loop (words meaningful_words : list string) : list string :=
  match words with
  | [] => meaningful_words
  | word :: rest =>
      if (2 <? len word)%nat && negb (isdigit word)
         && negb (in_list (lower word) skip_words)
      then let meaningful_words := (meaningful_words ++ [lower word])%list in
           if (2 <=? length meaningful_words)%nat then meaningful_words
           else meaningful_loop rest meaningful_words
      else meaningful_loop rest meaningful_words
  end.

Definition extract_key_term_for_config (description : string) : string :=
  let prefixes_to_remove := ["sq *"; "tst*"; "sp "; "fsp*"; "6602-"] in
  let clean_desc := remove_first_prefix prefixes_to_remove description in
  let words := split clean_desc in
  let meaningful_words := meaningful_loop (firstn 3 words) [] in
  if (0 <? length meaningful_words)%nat then join " " meaningful_words
  else match words with
       | w0 :: _ => lower w0
       | [] => take 10 (lower description)
       end.

(** *** [update_config_with_new_keyword] *)

(** The in-memory part: create the category when absent, append the keyword
    when the category's list does not hold it yet. *)
Definition add_keyword (category keyword : string) (config : RuleSet) : RuleSet :=
  let cats := categories config in
  let cats := if dict_mem category cats then cats else dict_set category [] cats in
  let keywords := default [] (dict_get category cats) in
  let cats := if in_list keyword keywords then cats
              else dict_set category (keywords ++ [keyword])%list cats in
  mkRuleSet cats (default_category config).

(** [with open(self.config_file, "w") as f: yaml.dump(config, f, ...)] *)
Definition dump_config : M unit := fun w =>
  let config := categorization_config w in
  match fs_outcomes w with
  | [] => (Ok tt, mkWorld config (stdin w) [] (Some config))
  | WriteOk :: rest => (Ok tt, mkWorld config (stdin w) rest (Some config))
  | WriteFails residue :: rest => (Raise OSError, mkWorld config (stdin w) rest residue)
  end.

(** [try: body  except Exception: handler] *)
Definition try_except {A} (body : M A) (handler : exn -> M A) : M A := fun w =>
  match body w with
  | (Ok a, w') => (Ok a, w')
  | (Raise e, w') => handler e w'
  end.

Definition update_config_with_new_keyword (category keyword : string) : M unit := fun w =>
  let w := set_config (add_keyword category keyword (categorization_config w)) w in
  try_except dump_config (fun _ => mret tt) w.

(** *** [prompt_user_for_category] *)

(** The [while True] loop.  Each turn calls [input()] once, so the loop is
    a recursion on the terminal input still to come; at its end [input()]
    raises EOFError, which no handler of the loop catches. *)
Fixpoint prompt_loop (description : string) (events : list tty_event) : M string := fun w =>
  match events with
  | [] => (Raise EOFError, set_stdin [] w)
  | Interrupt :: rest =>
      let w := set_stdin rest w in
      (Ok (default "Other" (default_category (categorization_config w))), w)
  | Line l :: rest =>
      let w := set_stdin rest w in
      let choice := strip l in
      if is_empty choice then prompt_loop description rest w
      else match py_int choice with
           | None => prompt_loop description rest w
           | Some n =>
               let choice_idx := (n - 1)%Z in
               if (0 <=? choice_idx)%Z
                  && (choice_idx <? Z.of_nat (length AVAILABLE_CATEGORIES))%Z
               then
                 let selected_category :=
                   nth (Z.to_nat choice_idx) AVAILABLE_CATEGORIES "" in
                 let key_term := extract_key_term_for_config description in
                 (_ ← update_config_with_new_keyword selected_category key_term;
                  mret selected_category) w
               else prompt_loop description rest w
           end
  end.

Definition prompt_user_for_category (description : string) (amount : float) : M string :=
  fun w => prompt_loop description (stdin w) w.

(** *** [categorize_transaction_with_amount] *)

Definition costco_override (desc_lower : string) (amount : float) : bool :=
  startswith desc_lower "costco-" && PyFloat.gt amount (PyFloat.of_Z 100).

(** [any(keyword.lower() in desc_lower for keyword in keywords)] *)
Definition any_keyword (desc_lower : string) (keywords : list string) : bool :=
  existsb (fun keyword => py_in (lower keyword) desc_lower) keywords.

(** The [for category, keywords in ...items()] loop: the first category one
    of whose keywords occurs in the description, if there is one. *)
Fixpoint match_rules (desc_lower : string) (items : list (string * list string))
  : option string :=
  match items with
  | [] => None
  | (category, keywords) :: rest =>
      if any_keyword desc_lower keywords then Some category
      else match_rules desc_lower rest
  end.

Definition categorize_transaction_with_amount (description : string) (amount : float)
  : M string :=
  let desc_lower := lower description in
  if costco_override desc_lower amount then mret "Shopping"
  else
    config ← get_config;
    match match_rules desc_lower (categories config) with
    | Some category => mret category
    | None => prompt_user_for_category description amount
    end.

(** ** The merchant normalizer: [extract_merchant_name] *)

(** The [for prefix in prefixes_to_remove] loop of the normalizer: no
    [break], every prefix is tried in turn on what the earlier ones left. *)
Fixpoint remove_prefixes (prefixes : list string) (clean_desc : string) : string :=
  match prefixes with
  | [] => clean_desc
  | prefix :: rest =>
      remove_prefixes rest
        (if startswith clean_desc prefix
         then strip (drop (len prefix) clean_desc)
         else clean_desc)
  end.

Definition location_words : list string :=
  ["phone"; "number:"; "folio"; "arrive:"; "depart:"; "www"; "com"; "ecom"].

Definition is_separator (c : ascii) : bool :=
  Ascii.eqb c "-" || Ascii.eqb c "." || Ascii.eqb c "/".

(** The [for word in words] loop with its three [continue]s and its [break]
    once two words are kept. *)
Fixpoint clean_words_loop (words clean_words : list string) : list string :=
  match words with
  | [] => clean_words
  | word :: rest =>
      if any_char is_digit word && any_char is_separator word
      then clean_words_loop rest clean_words
      else if (len word =? 2)%nat && isupper word
      then clean_words_loop rest clean_words
      else if in_list (lower word) location_words
      then clean_words_loop rest clean_words
      else
        let clean_words :=
          if (1 <? len word)%nat then (clean_words ++ [title word])%list
          else clean_words in
        if (2 <=? length clean_words)%nat then clean_words
        else clean_words_loop rest clean_words
  end.

(** The [else] branch: unknown merchants. *)
Definition unknown_merchant_name (raw_description : string) : string :=
  let clean_desc := strip raw_description in
  let prefixes_to_remove := ["SQ *"; "TST*"; "SP "; "FSP*"; "6602-"] in
  let clean_desc := remove_prefixes prefixes_to_remove clean_desc in
  let words := split clean_desc in
  let clean_words := clean_words_loop words [] in
  if (0 <? length clean_words)%nat then join " " (firstn 2 clean_words)
  else
    let first_word := match words with w0 :: _ => w0 | [] => raw_description end in
    take 15 (title first_word).

Definition extract_merchant_name (raw_description : string) : string :=
  let desc_lower := lower raw_description in
  let has (s : string) : bool := py_in s desc_lower in
  if has "tesla" && (has "supercharger" || has "charge") then "TESLA Charging"
  else if has "blink charging" || has "blink" then "Blink Charging"
  else if has "amazon" then "AMAZON"
  else if has "starbucks" then "STARBUCKS"
  else if has "delta" && has "air" then "DELTA Airlines"
  else if has "uber" then "UBER"
  else if has "lyft" then "LYFT"
  else if has "safeway" then "SAFEWAY"
  else if has "qfc" then "QFC"
  else if has "at&t" then "AT&T"
  else if has "t&t" && has "supermarket" then "T&T Supermarket"
  else if has "puget sound energy" then "Puget Sound"
  else if has "progressive" && has "insurance" then "Progressive Insurance"
  else if has "rei" && (has "rei " || has "rei.com") then "REI"
  else if has "best buy" then "Best Buy"
  else if has "target" then "Target"
  else if has "home depot" then "Home Depot"
  else if has "ikea" then "IKEA"
  else if has "uscis" then "USCIS"
  else if has "us treas" && (has "tax" || has "pymt") then "US Treasury"
  else if has "autopay" || has "payment" then "Payment"
  else if has "walgreens" then "WALGREENS"
  else if has "cvs" then "CVS"
  else if has "shell" then "SHELL"
  else if has "chevron" then "CHEVRON"
  else if has "arco" then "ARCO"
  else if has "mcdonald" then "McDonalds"
  else if has "subway" then "SUBWAY"
  else if has "trader joe" then "Trader Joes"
  else if has "whole foods" then "Whole Foods"
  else if has "walmart" || has "wm supercenter" then "WALMART"
  else if has "fred meyer" || has "fred-meyer" then "Fred Meyer"
  else if has "goodwill" then "GOODWILL"
  else if has "netflix" then "NETFLIX"
  else if has "spotify" then "SPOTIFY"
  else if has "apple" && (has "store" || has "itunes") then "Apple Store"
  else if has "google" then "GOOGLE"
  else if has "microsoft" then "MICROSOFT"
  else if has "too good to go" then "Too Good"
  else if has "summit" && has "snoqualmie" then "Summit Snoqualmie"
  else if has "claire" then "CLAIRE"
  else if has "ten seconds" then "Ten Seconds"
  else if has "legoland" then "LEGOLAND"
  else if has "dough zone" then "Dough Zone"
  else if has "pay by phone" || has "paybyphone" then "Parking"
  else if has "spokane" then
    if has "hotel" || has "club" then "Spokane Club"
    else if has "restaurant" || has "kitchen" then "Spokane Restaurant"
    else "Spokane Business"
  else unknown_merchant_name raw_description.

(** [len(s.split())]: the number of whitespace-separated words of [s]. *)
Definition word_count (s : string) : nat := length (split s).

(** ** The source adapters: [CSVProcessor] and its subclasses *)

(** A pandas cell: a string, a float64 (NaN is the missing value) or a
    timestamp in nanoseconds. *)
Inductive cell : Type :=
| CStr (s : string)
| CFloat (f : float)
| CTime (ns : Z).

Definition Series : Type := list cell.

(** A DataFrame, column-major: the columns in order, each a [Series] over
    the frame's index; a row is the [Series] of one index position, keyed by
    the column labels. *)
Definition DataFrame : Type := list (string * Series).
Definition row : Type := list (string * cell).

(** The canonical record an adapter produces: the dict with the keys
    ["date"], ["description"] and ["amount"]. *)
Record transaction : Type := mkTransaction {
  tx_date : cell;
  tx_description : cell;
  tx_amount : float;
}.

Definition nrows (df : DataFrame) : nat :=
  match df with
  | [] => O
  | (_, s) :: _ => length s
  end.

Definition row_at (df : DataFrame) (i : nat) : row :=
  flat_map (fun '(name, s) => match nth_error s i with
                              | Some v => [(name, v)]
                              | None => []
                              end) df.

(** [df.iterrows()], without the index labels the loop ignores. *)
Definition iterrows (df : DataFrame) : list row :=
  map (row_at df) (seq 0 (nrows df)).

(** [x[name]] on a row or a frame: KeyError when the label is absent. *)
Definition getitem {V} (x : list (string * V)) (name : string) : result V :=
  match dict_get name x with
  | Some v => Ok v
  | None => Raise (KeyError name)
  end.

(** Truth value of a column-name attribute: [None] and [""] are false. *)
Definition truthy (o : option string) : bool :=
  match o with
  | Some s => negb (is_empty s)
  | None => false
  end.

(** [series.fillna(0)] *)
Definition fillna0 (c : cell) : cell :=
  match c with
  | CFloat f => if PyFloat.is_nan f then CFloat (PyFloat.of_Z 0) else c
  | _ => c
  end.

Fixpoint mapM {A B} (f : A -> result B) (l : list A) : result (list B) :=
  match l with
  | [] => Ok []
  | a :: l' => b ← f a; bs ← mapM f l'; mret (b :: bs)
  end.

Record ProcessorAttrs : Type := mkAttrs {
  date_column_name : option string;
  description_column_name : option string;
  amount_column_name : option string;
  amount_multiplier : Z;
  skip_patterns : list string;
}.

(** A processor: the class attributes and the two methods a subclass may
    override. *)
Record CSVProcessor : Type := mkProcessor {
  attrs :> ProcessorAttrs;
  _consolidate_columns : DataFrame -> result DataFrame;
  _extract_transaction_data : row -> result (option transaction);
}.

Section Adapters.

(** Library routines the adapters call and this development leaves
    uninterpreted: [pd.to_datetime] on a column, [str] of a float and of a
    timestamp, and [float] of a string ([None]: ValueError). *)
Variable to_datetime : Series -> result Series.
Variable str_float : float -> string.
Variable str_time : Z -> string.
Variable float_of_str : string -> option float.

(** [str(c)] *)
Definition py_str (c : cell) : string :=
  match c with
  | CStr s => s
  | CFloat f => str_float f
  | CTime ns => str_time ns
  end.

(** [float(c)] *)
Definition py_float (c : cell) : result float :=
  match c with
  | CFloat f => Ok f
  | CStr s => match float_of_str s with
              | Some f => Ok f
              | None => Raise ValueError
              end
  | CTime _ => Raise TypeError
  end.

(** [CSVProcessor._consolidate_columns] *)
Definition base_consolidate_columns (df : DataFrame) : result DataFrame := Ok df.

(** [CSVProcessor._extract_transaction_data] *)
Definition base_extract_transaction_data (self : ProcessorAttrs) (r : row)
  : result (option transaction) :=
  if truthy (date_column_name self) && truthy (description_column_name self)
     && truthy (amount_column_name self)
  then
    d ← getitem r (default "" (date_column_name self));
    descr ← getitem r (default "" (description_column_name self));
    a ← getitem r (default "" (amount_column_name self));
    f ← py_float a;
    mret (Some (mkTransaction d descr
                  (PyFloat.mul f (PyFloat.of_Z (amount_multiplier self)))))
  else Raise NotImplementedError.

(** [CSVProcessor._should_skip_transaction] *)
Definition _should_skip_transaction (self : ProcessorAttrs) (r : row) : bool :=
  if is_empty_list (skip_patterns self) || negb (truthy (description_column_name self))
  then false
  else
    match description_column_name self with
    | Some description_col =>
        match dict_get description_col r with
        | Some c =>
            let description := lower (py_str c) in
            existsb (fun pattern => py_in (lower pattern) description)
                    (skip_patterns self)
        | None => false
        end
    | None => false
    end.

(** [CSVProcessor._prepare_dataframe] *)
Definition _prepare_dataframe (self : CSVProcessor) (df : DataFrame) : result DataFrame :=
  let date_col := default "" (date_column_name self) in
  df ← (if truthy (date_column_name self) && dict_mem date_col df
        then s ← getitem df date_col;
             s' ← to_datetime s;
             mret (dict_set date_col s' df)
        else mret df);
  _consolidate_columns self df.

(** The [for _, row in df.iterrows()] loop of [process]. *)
Fixpoint process_rows (self : CSVProcessor) (rows : list row)
  : result (list transaction) :=
  match rows with
  | [] => Ok []
  | r :: rest =>
      if _should_skip_transaction self r then process_rows self rest
      else
        transaction_data ← _extract_transaction_data self r;
        processed ← process_rows self rest;
        mret (match transaction_data with
              | Some t => t :: processed
              | None => processed
              end)
  end.

(** [CSVProcessor.process], from the frame [pd.read_csv] returned. *)
Definition process (self : CSVProcessor) (df : DataFrame) : result (list transaction) :=
  df ← _prepare_dataframe self df;
  process_rows self (iterrows df).

(** *** [CitiCSVProcessor] *)

Definition citi_attrs : ProcessorAttrs :=
  mkAttrs (Some "Date") (Some "Description") (Some "Amount") 1 ["costco"].

(** [series.astype(float)] *)
Definition astype_float (s : Series) : result (list float) := mapM py_float s.

(** [CitiCSVProcessor._consolidate_columns]:
    [df["Amount"] = df["Debit"].fillna(0).astype(float)
                    + df["Credit"].fillna(0).astype(float)] *)
Definition citi_consolidate_columns (df : DataFrame) : result DataFrame :=
  debit ← getitem df "Debit";
  debit ← astype_float (map fillna0 debit);
  credit ← getitem df "Credit";
  credit ← astype_float (map fillna0 credit);
  mret (dict_set "Amount" (map CFloat (zip_with PyFloat.add debit credit)) df).

Definition CitiCSVProcessor : CSVProcessor :=
  mkProcessor citi_attrs citi_consolidate_columns
              (base_extract_transaction_data citi_attrs).

(** *** [SmartlyCSVProcessor] *)

Definition smartly_attrs : ProcessorAttrs :=
  mkAttrs (Some "Date") (Some "Name") (Some "Amount") (-1) ["costco"].

Definition SmartlyCSVProcessor : CSVProcessor :=
  mkProcessor smartly_attrs base_consolidate_columns
              (base_extract_transaction_data smartly_attrs).

(** *** [CostcoCSVProcessor] *)

Definition costco_attrs : ProcessorAttrs :=
  mkAttrs (Some "date") (Some "description") (Some "amount") 1 [].

Definition costco_extract_transaction_data (self : ProcessorAttrs) (r : row)
  : result (option transaction) :=
  d ← getitem r (default "" (date_column_name self));
  descr ← getitem r (default "" (description_column_name self));
  a ← getitem r (default "" (amount_column_name self));
  f ← py_float a;
  mret (Some (mkTransaction d (CStr ("COSTCO-" ++ py_str descr))
                (PyFloat.mul f (PyFloat.of_Z (amount_multiplier self))))).

Definition CostcoCSVProcessor : CSVProcessor :=
  mkProcessor costco_attrs base_consolidate_columns
              (costco_extract_transaction_data costco_attrs).

End Adapters.

(** ** The pipeline orchestrator: [load_and_process_data] *)

(** What the orchestrator can raise: the exceptions of the adapters and of
    the classifier, and AttributeError, which [extract_merchant_name] raises
    on a description that is not a string (a missing one is NaN). *)
Inductive run_exn : Type :=
| Exn (e : exn)
| AttributeError.

Inductive outcome (A : Type) : Type :=
| Returns (a : A)
| Raises (e : run_exn).
Arguments Returns {A} a.
Arguments Raises {A} e.

(** The CSV folder as the run finds it: whether it exists, its listing and
    what [pd.read_csv] gives for a file of it. *)
Record Folder : Type := mkFolder {
  folder_exists : bool;
  listdir : list string;
  read_csv : string -> result DataFrame;
}.

(** The analyzer object: the state the classifier works on and
    [self.combined_data]. *)
Record Analyzer : Type := mkAnalyzer {
  world : World;
  combined_data : option DataFrame;
}.

(** [pd.DataFrame(all_data)]: the frame of a list of transaction dicts. *)
Definition frame_of_records (records : list transaction) : DataFrame :=
  [("date", map tx_date records);
   ("description", map tx_description records);
   ("amount", map (fun t => CFloat (tx_amount t)) records)].

(** The rows of a list taken in the order of a list of positions. *)
Definition reorder {A} (order : list nat) (l : list A) : list A :=
  omap (fun i => nth_error l i) order.

(** [series.apply(self.extract_merchant_name)] *)
Fixpoint apply_extract_merchant_name (s : Series) : outcome (list string) :=
  match s with
  | [] => Returns []
  | CStr raw_description :: s' =>
      match apply_extract_merchant_name s' with
      | Returns names => Returns (extract_merchant_name raw_description :: names)
      | Raises e => Raises e
      end
  | _ :: _ => Raises AttributeError
  end.

(** [df.apply(lambda row: self.categorize_transaction_with_amount(
    row["description"], row["amount"]), axis=1)]: the classifier is called
    row after row, each call on the state the one before left. *)
Fixpoint categorize_rows (descriptions : list string) (amounts : list float)
  : M (list string) :=
  match descriptions, amounts with
  | description :: descriptions', amount :: amounts' =>
      category ← categorize_transaction_with_amount description amount;
      categories ← categorize_rows descriptions' amounts';
      mret (category :: categories)
  | _, _ => mret []
  end.

Section Orchestrator.

Variable to_datetime : Series -> result Series.
Variable str_float : float -> string.
Variable str_time : Z -> string.
Variable float_of_str : string -> option float.

(** Library behaviour left uninterpreted: the order in which a Python set
    of file names is iterated, the row order [sort_values] produces for a
    column (as positions into the unsorted frame; it may raise), and
    [series.dt.strftime("%Y-%m")]. *)
Variable set_iter : list string -> list string.
Variable argsort : Series -> result (list nat).
Variable dt_strftime : Series -> result Series.

Definition default_csv_processor_mapping : list (string * CSVProcessor) :=
  [("Year to date.CSV", CitiCSVProcessor float_of_str);
   ("Credit Card - 1604_01-01-2025_08-29-2025.csv", SmartlyCSVProcessor float_of_str);
   ("costco_transactions.csv", CostcoCSVProcessor str_float str_time float_of_str)].

(** [available_files.intersection(registered_files)], in iteration order. *)
Definition csv_files (mapping : list (string * CSVProcessor)) (folder : Folder)
  : list string :=
  set_iter (List.filter (fun f => dict_mem f mapping) (remove_dups (listdir folder))).

(** [processor.process(file_path)], reading the file included. *)
Definition process_file (processor : CSVProcessor) (folder : Folder) (csv_file : string)
  : result (list transaction) :=
  df ← read_csv folder csv_file;
  process to_datetime str_float str_time processor df.

(** The [for csv_file in csv_files] loop: a file that cannot be processed
    is reported and passed over. *)
Fixpoint collect_files (mapping : list (string * CSVProcessor)) (folder : Folder)
         (files : list string) (all_data : list transaction)
  : result (list transaction) :=
  match files with
  | [] => Ok all_data
  | csv_file :: rest =>
      processor ← getitem mapping csv_file;
      match process_file processor folder csv_file with
      | Ok processed_data =>
          collect_files mapping folder rest (all_data ++ processed_data)%list
      | Raise _ => collect_files mapping folder rest all_data
      end
  end.

Definition load_and_process_data (mapping : list (string * CSVProcessor))
           (folder : Folder) (self : Analyzer) : outcome DataFrame * Analyzer :=
  if negb (folder_exists folder) then (Raises (Exn ValueError), self)
  else
    let files := csv_files mapping folder in
    if is_empty_list files then (Raises (Exn ValueError), self)
    else
      match collect_files mapping folder files [] with
      | Raise e => (Raises (Exn e), self)
      | Ok all_data =>
          if is_empty_list all_data then (Raises (Exn ValueError), self)
          else
            let unsorted := frame_of_records all_data in
            match argsort (map tx_date all_data) with
            | Raise e => (Raises (Exn e), mkAnalyzer (world self) (Some unsorted))
            | Ok order =>
                let records := reorder order all_data in
                let df := frame_of_records records in
                let raw_description := map tx_description records in
                let df := dict_set "raw_description" raw_description df in
                match apply_extract_merchant_name raw_description with
                | Raises e => (Raises e, mkAnalyzer (world self) (Some df))
                | Returns description =>
                    let df := dict_set "description" (map CStr description) df in
                    match categorize_rows description (map tx_amount records)
                                          (world self) with
                    | (Raise e, w) => (Raises (Exn e), mkAnalyzer w (Some df))
                    | (Ok category, w) =>
                        let df := dict_set "category" (map CStr category) df in
                        match dt_strftime (map tx_date records) with
                        | Raise e => (Raises (Exn e), mkAnalyzer w (Some df))
                        | Ok year_month =>
                            let df := dict_set "year_month" year_month df in
                            (Returns df, mkAnalyzer w (Some df))
                        end
                    end
                end
            end
      end.

End Orchestrator.

(** ** Vocabulary of the specification *)

(** [s] starts with [p], case-insensitively: a prefix of [s] is [p] up to case. *)
Definition ci_startswith (s p : string) : Prop :=
  exists a b, s = a ++ b /\ lower a = lower p.

(** [k] is a case-insensitive substring of [s]. *)
Definition ci_contains (s k : string) : Prop :=
  exists a m b, s = a ++ m ++ b /\ lower m = lower k.

(** The Costco override applies to a merchant name and an amount. *)
Definition override_applies (merchant_name : string) (amount : float) : Prop :=
  ci_startswith merchant_name "costco-"
  /\ PyFloat.gt amount (PyFloat.of_Z 100) = true.

(** No keyword of the item list matches the merchant name. *)
Definition no_keyword_matches (items : list (string * list string)) (merchant_name : string)
  : Prop :=
  forall c kws k, In (c, kws) items -> In k kws -> ~ ci_contains merchant_name k.

(** A typed line selects category [C] of the enumerated list. *)
Definition selects (line : string) (C : string) : Prop :=
  exists n : Z, py_int (strip line) = Some n /\ (1 <= n)%Z
                /\ nth_error AVAILABLE_CATEGORIES (Z.to_nat (n - 1)) = Some C.

(** A typed line the prompt rejects: blank, not a number, or out of range. *)
Definition invalid_line (line : string) : Prop :=
  strip line = ""
  \/ py_int (strip line) = None
  \/ exists n : Z, py_int (strip line) = Some n
                   /\ (n < 1 \/ Z.of_nat (length AVAILABLE_CATEGORIES) < n)%Z.

(** The keyword list of [category] once [keyword] is learned for it: the
    list it had (none if the category is new) with the keyword at the end,
    unless the list held it already. *)
Definition learned_list (category keyword : string) (config : RuleSet) : list string :=
  let old := default [] (dict_get category (categories config)) in
  if in_list keyword old then old else (old ++ [keyword])%list.

(** The next attempt to rewrite the rule store file goes through. *)
Definition next_write_succeeds (w : World) : Prop :=
  match fs_outcomes w with
  | WriteFails _ :: _ => False
  | _ => True
  end.

(** The world [update_config_with_new_keyword] leaves behind. *)
Definition after_update (category keyword : string) (w : World) : World :=
  let config := add_keyword category keyword (categorization_config w) in
  mkWorld config (stdin w) (tl (fs_outcomes w))
          (match fs_outcomes w with
           | WriteFails residue :: _ => residue
           | _ => Some config
           end).

(** [x] occurs in [s] as a contiguous substring. *)
Definition occurs_in (x s : string) : Prop := exists a b, s = a ++ x ++ b.

(** The meaningful words [extract_key_term_for_config] finds in a
    description. *)
Definition meaningful_words_of (description : string) : list string :=
  meaningful_loop
    (firstn 3 (split (remove_first_prefix ["sq *"; "tst*"; "sp "; "fsp*"; "6602-"]
                                          description)))
    [].

(** A string without whitespace: a single token, or nothing. *)
Definition no_space (s : string) : Prop :=
  all_char (fun c => negb (is_space c)) s = true.

(** A missing amount counts as zero. *)
Definition or_zero (x : float) : float :=
  if PyFloat.is_nan x then PyFloat.of_Z 0 else x.

(** The frame [pd.read_csv] gives for the one-row Citi file
    [Date,Description,Debit,Credit / 2025-03-01,TST* Dough Zone 2xxx,32.50,]:
    32.50 is the float [65 * 2^-1] and the empty Credit field is NaN. *)
Definition citi_example_frame : DataFrame :=
  [("Date", [CStr "2025-03-01"]);
   ("Description", [CStr "TST* Dough Zone 2xxx"]);
   ("Debit", [CFloat (PyFloat.of_scaled 65 (-1))]);
   ("Credit", [CFloat S754_nan])].

(** A run started without a rule store file: the built-in rule set, the
    given terminal input, writes that succeed, no file yet. *)
Definition fresh_world (events : list tty_event) : World :=
  mkWorld (load_categorization_config FileNotFound) events [] None.

(** A two-row Smartly export: a Costco purchase, which the Costco adapter
    reports itself, and a bakery. *)
Definition smartly_example_frame : DataFrame :=
  [("Date", [CStr "2025-03-01"; CStr "2025-03-02"]);
   ("Name", [CStr "COSTCO WHSE #0001"; CStr "Corner Bakery"]);
   ("Amount", [CFloat (PyFloat.of_Z (-50)); CFloat (PyFloat.of_Z (-12))])].

(** The item list [new] is the item list [old] grown: the same categories
    in the same order, each with its keywords and possibly more after them,
    and possibly more categories at the end. *)
Inductive grows_items : list (string * list string) -> list (string * list string) -> Prop :=
| grows_nil (extra : list (string * list string)) : grows_items [] extra
| grows_cons (c : string) (kws more : list string)
             (old new : list (string * list string)) :
    grows_items old new ->
    grows_items ((c, kws) :: old) ((c, (kws ++ more)%list) :: new).

(** The rule set [new] extends the rule set [old]. *)
Definition extends (old new : RuleSet) : Prop :=
  default_category new = default_category old
  /\ grows_items (categories old) (categories new).

(** The world [w'] is met later in the run than [w]: after any number of
    calls of the classifier. *)
Inductive later (w : World) : World -> Prop :=
| later_now : later w w
| later_call (description : string) (amount : float) (w' : World) :
    later (snd (categorize_transaction_with_amount description amount w)) w' ->
    later w w'.

(** A rule set whose dict has each key once and whose keyword lists are
    ordered sets. *)
Definition duplicate_free (config : RuleSet) : Prop :=
  NoDup (map fst (categories config))
  /\ Forall (fun item => NoDup (snd item)) (categories config).

(** The categories none of whose keywords could ever match: those with an
    empty keyword list. *)
Definition has_keywords (item : string * list string) : bool :=
  negb (is_empty_list (snd item)).

(** A token: a non-empty string without whitespace. *)
Definition token (s : string) : Prop := no_space s /\ s <> "".

(** A tidy name: at most two words, and nothing but one blank between
    them, so that the name is its words joined by a blank. *)
Definition tidy (s : string) : Prop :=
  s = join " " (split s) /\ (length (split s) <= 2)%nat.

(** One behaviour of the library routines left uninterpreted, for the
    instances below: dates are kept as read, a float prints as "nan" and a
    timestamp as nothing, no string converts to a float, a set is iterated
    in the order given, the sort keeps the rows in place and every date
    formats as "2025-03". *)
Definition plain_to_datetime (s : Series) : result Series := Ok s.
Definition plain_str_float (f : float) : string := "nan".
Definition plain_str_time (ns : Z) : string := "".
Definition plain_float_of_str (s : string) : option float := None.
Definition plain_set_iter (l : list string) : list string := l.
Definition plain_argsort (s : Series) : result (list nat) := Ok (seq 0 (length s)).
Definition plain_dt_strftime (s : Series) : result Series :=
  Ok (map (fun _ => CStr "2025-03") s).

(** A folder holding the two-row Smartly export and an unreadable Citi
    file. *)
Definition example_folder : Folder :=
  mkFolder true
           ["Year to date.CSV"; "Credit Card - 1604_01-01-2025_08-29-2025.csv"; "notes.txt"]
           (fun csv_file =>
              if String.eqb csv_file "Credit Card - 1604_01-01-2025_08-29-2025.csv"
              then Ok smartly_example_frame
              else Raise OSError).

(** A folder whose Smartly export has a row without a description. *)
Definition folder_with_missing_description : Folder :=
  mkFolder true
           ["Credit Card - 1604_01-01-2025_08-29-2025.csv"]
           (fun _ =>
              Ok [("Date", [CStr "2025-03-01"; CStr "2025-03-02"]);
                  ("Name", [CStr "Corner Bakery"; CFloat S754_nan]);
                  ("Amount", [CFloat (PyFloat.of_Z (-12)); CFloat (PyFloat.of_Z (-7))])]).

(** ** Sanity checks of the embedding *)

Example lower_ex : lower "COSTCO-Kirkland 12" = "costco-kirkland 12".
Proof. reflexivity. Qed.
Example split_ex : split "  TST* Dough   Zone 2xxx " = ["TST*"; "Dough"; "Zone"; "2xxx"].
Proof. reflexivity. Qed.
Example strip_ex : strip "  a b  " = "a b".
Proof. reflexivity. Qed.
Example title_ex : title "SQ * TST* o'neil 2go" = "Sq * Tst* O'Neil 2Go".
Proof. reflexivity. Qed.
Example py_int_ex : (py_int "3", py_int "+1_0", py_int "-2", py_int "3x", py_int "", py_int "1__0")
                    = (Some 3%Z, Some 10%Z, Some (-2)%Z, None, None, None).
Proof. reflexivity. Qed.

Example normalize_dough_zone : extract_merchant_name "TST* Dough Zone 2xxx" = "Dough Zone".
Proof. reflexivity. Qed.
Example normalize_starbucks : extract_merchant_name "STARBUCKS #1234 SEATTLE WA" = "STARBUCKS".
Proof. reflexivity. Qed.
Example normalize_unknown :
  extract_merchant_name "SQ *JOE'S diner 206-555-0100 WA" = "Joe'S Diner".
Proof. reflexivity. Qed.
Example normalize_last_resort : extract_merchant_name "WA 12/31" = "Wa".
Proof. reflexivity. Qed.


(** ** Facts about the string primitives *)

Section StringFacts.

#[local] Arguments String.append : simpl nomatch.

Lemma append_nil_r (s : string) : s ++ "" = s.
Proof. induction s as [|c s IH]; simpl; [reflexivity | now rewrite IH]. Qed.

Lemma append_assoc (a b c : string) : (a ++ b) ++ c = a ++ (b ++ c).
Proof. induction a as [|x a IH]; simpl; [reflexivity | now rewrite IH]. Qed.

Lemma lower_app (a b : string) : lower (a ++ b) = lower a ++ lower b.
Proof. induction a as [|x a IH]; simpl; [reflexivity | now rewrite IH]. Qed.

(** Lower-casing is done character by character, so a split of the
    lower-cased string comes from a split of the string itself. *)
Lemma lower_split (s x y : string) :
  lower s = x ++ y -> exists a b, s = a ++ b /\ lower a = x /\ lower b = y.
Proof.
  revert s; induction x as [|c x IH]; intros s H.
  - exists "", s. simpl in *. auto.
  - destruct s as [|d s]; simpl in H; [discriminate|].
    injection H as Hc Hs.
    destruct (IH _ Hs) as (a & b & -> & Ha & Hb).
    exists (String d a), b. simpl. now rewrite Hc, Ha.
Qed.

Lemma startswith_app (p r : string) : startswith (p ++ r) p = true.
Proof.
  induction p as [|c p IH]; simpl; [reflexivity|].
  now rewrite Ascii.eqb_refl, IH.
Qed.

Lemma startswith_inv (s p : string) :
  startswith s p = true -> exists r, s = p ++ r.
Proof.
  revert s; induction p as [|c p IH]; intros s H.
  - now exists s.
  - destruct s as [|d s]; simpl in H; [discriminate|].
    apply andb_true_iff in H as [Hc Hs].
    apply Ascii.eqb_eq in Hc as ->.
    destruct (IH _ Hs) as [r ->]. now exists r.
Qed.

Lemma py_in_startswith (n h : string) : startswith h n = true -> py_in n h = true.
Proof. intros H. destruct h; simpl; now rewrite H. Qed.

Lemma py_in_intro (n a b : string) : py_in n (a ++ n ++ b) = true.
Proof.
  induction a as [|c a IH]; simpl.
  - apply py_in_startswith, startswith_app.
  - rewrite IH. apply orb_true_r.
Qed.

Lemma py_in_inv (n h : string) :
  py_in n h = true -> exists a b, h = a ++ n ++ b.
Proof.
  induction h as [|c h IH]; simpl; intros H.
  - rewrite orb_false_r in H. destruct (startswith_inv _ _ H) as [r ->].
    now exists "", r.
  - apply orb_true_iff in H as [H|H].
    + destruct (startswith_inv _ _ H) as [r ->]. now exists "", r.
    + destruct (IH H) as (a & b & ->). now exists (String c a), b.
Qed.

(** The code's tests decide the specification's case-insensitive notions. *)
Lemma ci_startswith_iff (s p : string) :
  ci_startswith s p <-> startswith (lower s) (lower p) = true.
Proof.
  split.
  - intros (a & b & -> & Ha). rewrite lower_app, Ha. apply startswith_app.
  - intros H. destruct (startswith_inv _ _ H) as [r Hr].
    destruct (lower_split _ _ _ Hr) as (a & b & -> & Ha & _).
    now exists a, b.
Qed.

Lemma ci_contains_iff (s k : string) :
  ci_contains s k <-> py_in (lower k) (lower s) = true.
Proof.
  split.
  - intros (a & m & b & -> & Hm).
    rewrite !lower_app, Hm. apply py_in_intro.
  - intros H. destruct (py_in_inv _ _ H) as (x & y & Hxy).
    destruct (lower_split _ _ _ Hxy) as (a & r & -> & Ha & Hr).
    destruct (lower_split _ _ _ Hr) as (m & b & -> & Hm & _).
    now exists a, m, b.
Qed.

Lemma in_list_iff (x : string) (l : list string) : in_list x l = true <-> In x l.
Proof.
  unfold in_list. rewrite existsb_exists. split.
  - intros (y & Hy & E). apply String.eqb_eq in E. now subst.
  - intros H. exists x. split; [assumption | apply String.eqb_refl].
Qed.

End StringFacts.

(** ** The classifier: override and rule matching *)

Section RuleMatching.

Lemma costco_override_iff (merchant_name : string) (amount : float) :
  costco_override (lower merchant_name) amount = true
  <-> override_applies merchant_name amount.
Proof.
  unfold costco_override, override_applies.
  rewrite andb_true_iff, ci_startswith_iff. reflexivity.
Qed.

Lemma any_keyword_iff (merchant_name : string) (keywords : list string) :
  any_keyword (lower merchant_name) keywords = true
  <-> exists k, In k keywords /\ ci_contains merchant_name k.
Proof.
  unfold any_keyword. rewrite existsb_exists.
  split; intros (k & Hk & H); exists k; split; try assumption;
    now apply ci_contains_iff.
Qed.

Lemma match_rules_None (merchant_name : string) (items : list (string * list string)) :
  match_rules (lower merchant_name) items = None
  <-> no_keyword_matches items merchant_name.
Proof.
  unfold no_keyword_matches.
  induction items as [|[c kws] items IH]; simpl.
  - split; [intros _ ? ? ? [] | reflexivity].
  - destruct (any_keyword (lower merchant_name) kws) eqn:E.
    + split; [discriminate|]. intros H. exfalso.
      apply any_keyword_iff in E as (k & Hk & Hm).
      exact (H c kws k (or_introl eq_refl) Hk Hm).
    + rewrite IH. split.
      * intros H c' kws' k [Heq|Hin] Hk Hm.
        -- injection Heq as <- <-.
           assert (any_keyword (lower merchant_name) kws = true) as E'
               by (apply any_keyword_iff; eauto).
           congruence.
        -- exact (H c' kws' k Hin Hk Hm).
      * intros H c' kws' k Hin. apply (H c' kws' k). now right.
Qed.

(** First match wins: the loop returns the first category, in stored
    order, one of whose keywords occurs in the merchant name. *)
Lemma match_rules_first (merchant_name : string) (before after : list (string * list string))
      (c : string) (kws : list string) :
  no_keyword_matches before merchant_name ->
  (exists k, In k kws /\ ci_contains merchant_name k) ->
  match_rules (lower merchant_name) (before ++ (c, kws) :: after)%list = Some c.
Proof.
  intros Hb Hk. induction before as [|[c' kws'] before IH]; simpl.
  - apply any_keyword_iff in Hk. now rewrite Hk.
  - destruct (any_keyword (lower merchant_name) kws') eqn:E.
    + exfalso. apply any_keyword_iff in E as (k & Hin & Hm).
      exact (Hb c' kws' k (or_introl eq_refl) Hin Hm).
    + apply IH. intros c0 kws0 k Hin. apply (Hb c0 kws0 k). now right.
Qed.

(** When a rule matches, the classifier returns it and touches nothing. *)
Lemma categorize_by_rule (merchant_name : string) (amount : float) (w : World) (c : string) :
  costco_override (lower merchant_name) amount = false ->
  match_rules (lower merchant_name) (categories (categorization_config w)) = Some c ->
  categorize_transaction_with_amount merchant_name amount w = (Ok c, w).
Proof.
  intros Ho Hm. unfold categorize_transaction_with_amount.
  rewrite Ho. unfold mbind, M_bind, get_config. now rewrite Hm.
Qed.

Lemma not_override (merchant_name : string) (amount : float) :
  ~ override_applies merchant_name amount ->
  costco_override (lower merchant_name) amount = false.
Proof.
  intros H. destruct (costco_override _ _) eqn:E; [|reflexivity].
  exfalso. now apply H, costco_override_iff.
Qed.

End RuleMatching.

(** C1. A merchant name that starts, case-insensitively, with "costco-" and
    an amount above 100 are classified "Shopping" whatever the rule set holds;
    the world is returned as it was, so no terminal input was read and no
    rule was learned. *)
Theorem costco_over_100_is_shopping (merchant_name : string) (amount : float) (w : World) :
  ci_startswith merchant_name "costco-" ->
  PyFloat.gt amount (PyFloat.of_Z 100) = true ->
  categorize_transaction_with_amount merchant_name amount w = (Ok "Shopping", w).
Proof.
  intros Hp Ha. unfold categorize_transaction_with_amount.
  assert (costco_override (lower merchant_name) amount = true) as ->
      by (apply costco_override_iff; split; assumption).
  reflexivity.
Qed.

(** C2. When the override does not apply and some category has a keyword
    that is a case-insensitive substring of the merchant name, the classifier
    returns the first such category in stored order; the world is returned as
    it was: no prompt, no change to the rule set. *)
Theorem first_matching_category_wins
    (merchant_name : string) (amount : float) (w : World)
    (before after : list (string * list string)) (c : string) (kws : list string)
    (k : string) :
  ~ override_applies merchant_name amount ->
  categories (categorization_config w) = (before ++ (c, kws) :: after)%list ->
  no_keyword_matches before merchant_name ->
  In k kws ->
  ci_contains merchant_name k ->
  categorize_transaction_with_amount merchant_name amount w = (Ok c, w).
Proof.
  intros Ho Hcats Hbefore Hk Hm.
  apply categorize_by_rule; [now apply not_override|].
  rewrite Hcats. apply match_rules_first; eauto.
Qed.

(** ** The classifier: learning a keyword *)

Section Dicts.
Context {V : Type}.
Implicit Types (d : list (string * V)) (k : string) (v : V).

Lemma dict_mem_get k d : dict_mem k d = true <-> exists v, dict_get k d = Some v.
Proof.
  induction d as [|[k' v'] d IH]; simpl.
  - split; [discriminate | intros [? ?]; discriminate].
  - destruct (String.eqb k k'); simpl; [|exact IH].
    split; eauto.
Qed.

Lemma dict_mem_keys k d : dict_mem k d = true <-> In k (map fst d).
Proof.
  induction d as [|[k' v'] d IH]; simpl.
  - split; [discriminate | intros []].
  - rewrite orb_true_iff, IH, String.eqb_eq. split; intros [H|H]; auto.
Qed.

Lemma dict_get_absent k d : dict_mem k d = false -> dict_get k d = None.
Proof.
  intros H. destruct (dict_get k d) eqn:E; [|reflexivity].
  assert (dict_mem k d = true) by (apply dict_mem_get; eauto). congruence.
Qed.

Lemma dict_set_absent k v d : dict_mem k d = false -> dict_set k v d = (d ++ [(k, v)])%list.
Proof.
  induction d as [|[k' v'] d IH]; simpl; [reflexivity|].
  destruct (String.eqb k k'); simpl; [discriminate|].
  intros H. now rewrite IH.
Qed.

Lemma dict_set_last k v v0 d :
  dict_mem k d = false -> dict_set k v (d ++ [(k, v0)])%list = (d ++ [(k, v)])%list.
Proof.
  induction d as [|[k' v'] d IH]; simpl.
  - now rewrite String.eqb_refl.
  - destruct (String.eqb k k'); simpl; [discriminate|].
    intros H. now rewrite IH.
Qed.

Lemma dict_get_set k v d : dict_get k (dict_set k v d) = Some v.
Proof.
  induction d as [|[k' v'] d IH]; simpl.
  - now rewrite String.eqb_refl.
  - destruct (String.eqb k k') eqn:E; simpl; now rewrite E.
Qed.

Lemma dict_mem_set k v d : dict_mem k (dict_set k v d) = true.
Proof. apply dict_mem_get. exists v. apply dict_get_set. Qed.

Lemma dict_set_same k v d : dict_get k d = Some v -> dict_set k v d = d.
Proof.
  induction d as [|[k' v'] d IH]; simpl; [discriminate|].
  destruct (String.eqb k k'); [congruence|].
  intros H. now rewrite IH.
Qed.

Lemma dict_get_In k v d : dict_get k d = Some v -> In (k, v) d.
Proof.
  induction d as [|[k' v'] d IH]; simpl; [discriminate|].
  destruct (String.eqb k k') eqn:E.
  - apply String.eqb_eq in E as ->. intros [= ->]. now left.
  - intros H. right. now apply IH.
Qed.

End Dicts.

Section Learning.

Implicit Types (config : RuleSet) (w : World).

Lemma add_keyword_get category keyword config :
  dict_get category (categories (add_keyword category keyword config))
  = Some (learned_list category keyword config).
Proof.
  unfold add_keyword, learned_list. simpl.
  destruct (dict_mem category (categories config)) eqn:Hm.
  - apply dict_mem_get in Hm as [old Hold]. rewrite Hold. simpl.
    destruct (in_list keyword old); [assumption | apply dict_get_set].
  - rewrite (dict_get_absent _ _ Hm), dict_get_set. simpl. apply dict_get_set.
Qed.

Lemma learned_list_In category keyword config :
  In keyword (learned_list category keyword config).
Proof.
  unfold learned_list.
  destruct (in_list keyword _) eqn:E.
  - now apply in_list_iff.
  - apply in_or_app. right. now left.
Qed.

Lemma add_keyword_default category keyword config :
  default_category (add_keyword category keyword config) = default_category config.
Proof. reflexivity. Qed.

(** Learning a keyword a second time changes nothing. *)
Lemma add_keyword_idem category keyword config :
  add_keyword category keyword (add_keyword category keyword config)
  = add_keyword category keyword config.
Proof.
  pose proof (add_keyword_get category keyword config) as Hget.
  pose proof (learned_list_In category keyword config) as Hin.
  remember (add_keyword category keyword config) as config' eqn:E.
  unfold add_keyword at 1.
  assert (dict_mem category (categories config') = true) as ->
      by (apply dict_mem_get; eauto).
  rewrite Hget. simpl.
  apply in_list_iff in Hin. rewrite Hin.
  now destruct config'.
Qed.

(** A category the mapping does not have is created at its end. *)
Lemma add_keyword_new category keyword config :
  dict_mem category (categories config) = false ->
  categories (add_keyword category keyword config)
  = (categories config ++ [(category, [keyword])])%list.
Proof.
  intros Hm. unfold add_keyword. simpl. rewrite Hm.
  rewrite dict_get_set. simpl.
  rewrite (dict_set_absent _ _ _ Hm). now apply dict_set_last.
Qed.

(** [update_config_with_new_keyword] never raises; [after_update] is the
    world it leaves. *)
Lemma update_config_returns category keyword w :
  update_config_with_new_keyword category keyword w
  = (Ok tt, after_update category keyword w).
Proof.
  unfold update_config_with_new_keyword, try_except, dump_config, after_update.
  simpl. destruct (fs_outcomes w) as [|[|residue] rest]; reflexivity.
Qed.

End Learning.

Section Prompt.

Implicit Types (w : World) (description line : string).

Lemma is_empty_iff (s : string) : is_empty s = true <-> s = "".
Proof. destruct s; simpl; split; congruence. Qed.

(** What the loop was handed as the world's pending input is overwritten
    by the first [input()]. *)
Lemma prompt_loop_set_stdin description events pending w :
  prompt_loop description events (set_stdin pending w)
  = prompt_loop description events w.
Proof.
  destruct events as [|[line|] rest]; reflexivity.
Qed.

(** One turn of the loop on a typed line. *)
Lemma prompt_loop_Line description line rest w :
  prompt_loop description (Line line :: rest) w
  = let w := set_stdin rest w in
    if is_empty (strip line) then prompt_loop description rest w
    else match py_int (strip line) with
         | None => prompt_loop description rest w
         | Some n =>
             if (0 <=? n - 1)%Z
                && (n - 1 <? Z.of_nat (length AVAILABLE_CATEGORIES))%Z
             then
               (_ ← update_config_with_new_keyword
                      (nth (Z.to_nat (n - 1)) AVAILABLE_CATEGORIES "")
                      (extract_key_term_for_config description);
                mret (nth (Z.to_nat (n - 1)) AVAILABLE_CATEGORIES "")) w
             else prompt_loop description rest w
         end.
Proof. reflexivity. Qed.

(** A rejected line makes the loop ask again. *)
Lemma prompt_loop_invalid description line rest w :
  invalid_line line ->
  prompt_loop description (Line line :: rest) w = prompt_loop description rest w.
Proof.
  intros H. rewrite prompt_loop_Line. cbv zeta. rewrite !prompt_loop_set_stdin.
  destruct (is_empty (strip line)) eqn:E; [reflexivity|].
  destruct H as [H | [H | (n & H & Hn)]].
  - apply is_empty_iff in H. congruence.
  - now rewrite H.
  - rewrite H.
    assert ((0 <=? n - 1)%Z && (n - 1 <? Z.of_nat (length AVAILABLE_CATEGORIES))%Z
            = false) as ->; [|reflexivity].
    apply andb_false_iff. destruct Hn as [Hn|Hn]; [left | right].
    + apply Z.leb_gt. lia.
    + apply Z.ltb_ge. lia.
Qed.

Lemma prompt_loop_skip_invalid description (invalid : list string) events w :
  Forall invalid_line invalid ->
  prompt_loop description (map Line invalid ++ events)%list w
  = prompt_loop description events w.
Proof.
  intros H. induction H as [|line invalid Hl _ IH]; simpl map; simpl app.
  - reflexivity.
  - rewrite <- IH. now apply prompt_loop_invalid.
Qed.

(** A valid selection learns the key term for the selected category and
    returns that category. *)
Lemma prompt_loop_selects description line rest C w :
  selects line C ->
  prompt_loop description (Line line :: rest) w
  = (Ok C, after_update C (extract_key_term_for_config description)
                        (set_stdin rest w)).
Proof.
  intros (n & Hint & Hlo & Hnth). rewrite prompt_loop_Line. cbv zeta.
  destruct (is_empty (strip line)) eqn:E.
  { apply is_empty_iff in E. rewrite E in Hint. discriminate. }
  rewrite Hint.
  assert (Z.to_nat (n - 1) < length AVAILABLE_CATEGORIES)%nat as Hlt
      by (apply nth_error_Some; congruence).
  assert ((0 <=? n - 1)%Z && (n - 1 <? Z.of_nat (length AVAILABLE_CATEGORIES))%Z
          = true) as ->.
  { apply andb_true_iff. split; [apply Z.leb_le | apply Z.ltb_lt]; lia. }
  rewrite (nth_error_nth _ _ "" Hnth).
  unfold mbind, M_bind. rewrite update_config_returns. reflexivity.
Qed.

End Prompt.

(** C6. An interrupt while the prompt awaits input, possibly after some
    rejected lines, makes [prompt_user_for_category] return the configured
    default category, "Other" when none is configured; nothing is raised and
    the rule set, the pending write outcomes and the rule store file are as
    before: only the consumed terminal input is gone. *)
Theorem interrupt_yields_default_category
    (description : string) (amount : float) (w : World)
    (invalid : list string) (rest : list tty_event) :
  Forall invalid_line invalid ->
  stdin w = (map Line invalid ++ Interrupt :: rest)%list ->
  prompt_user_for_category description amount w
  = (Ok (default "Other" (default_category (categorization_config w))),
     mkWorld (categorization_config w) rest (fs_outcomes w) (config_file w)).
Proof.
  intros Hinv Hin. unfold prompt_user_for_category.
  rewrite Hin, prompt_loop_skip_invalid by assumption.
  reflexivity.
Qed.

(** C10. For a category the mapping does not have,
    [update_config_with_new_keyword] returns normally and the mapping gains
    that category as its last entry, with the keyword as its only one; the
    entries before it and the default category are untouched. *)
Theorem new_category_is_appended (C keyword : string) (w : World) :
  ~ In C (map fst (categories (categorization_config w))) ->
  exists w',
    update_config_with_new_keyword C keyword w = (Ok tt, w')
    /\ categories (categorization_config w')
       = (categories (categorization_config w) ++ [(C, [keyword])])%list
    /\ default_category (categorization_config w')
       = default_category (categorization_config w).
Proof.
  intros Hn.
  assert (dict_mem C (categories (categorization_config w)) = false) as Hm.
  { destruct (dict_mem _ _) eqn:E; [|reflexivity].
    exfalso. now apply Hn, dict_mem_keys. }
  exists (after_update C keyword w).
  split; [apply update_config_returns|].
  split; [now apply add_keyword_new | reflexivity].
Qed.

Section Relearning.

Implicit Types (d : string) (items : list (string * list string)).

Lemma match_rules_None_In d items c kws :
  match_rules d items = None -> In (c, kws) items -> any_keyword d kws = false.
Proof.
  induction items as [|[c' kws'] items IH]; simpl; [intros _ []|].
  destruct (any_keyword d kws') eqn:E; [discriminate|].
  intros H [[= <- <-]|Hin]; [assumption | now apply IH].
Qed.

Lemma match_rules_set_None d items C v :
  match_rules d items = None -> any_keyword d v = false ->
  match_rules d (dict_set C v items) = None.
Proof.
  intros H Hv. induction items as [|[c' kws'] items IH]; simpl in *.
  - now rewrite Hv.
  - destruct (any_keyword d kws') eqn:E; [discriminate|].
    destruct (String.eqb C c'); simpl; [now rewrite Hv | rewrite E; now apply IH].
Qed.

Lemma match_rules_set_Some d items C v :
  match_rules d items = None -> any_keyword d v = true ->
  match_rules d (dict_set C v items) = Some C.
Proof.
  intros H Hv. induction items as [|[c' kws'] items IH]; simpl in *.
  - now rewrite Hv.
  - destruct (any_keyword d kws') eqn:E; [discriminate|].
    destruct (String.eqb C c') eqn:Ec; simpl.
    + apply String.eqb_eq in Ec as ->. now rewrite Hv.
    + rewrite E. now apply IH.
Qed.

Lemma any_keyword_last d kws k :
  py_in (lower k) d = true -> any_keyword d (kws ++ [k])%list = true.
Proof.
  intros H. unfold any_keyword. rewrite existsb_app. simpl.
  rewrite H. now rewrite orb_true_r.
Qed.

(** Once a keyword that occurs in a so far unmatched description is
    learned for [C], rule matching finds [C] for that description. *)
Lemma match_rules_add_keyword d C k config :
  match_rules d (categories config) = None ->
  py_in (lower k) d = true ->
  match_rules d (categories (add_keyword C k config)) = Some C.
Proof.
  intros Hnone Hk. unfold add_keyword. simpl.
  set (cats1 := if dict_mem C (categories config) then categories config
                else dict_set C [] (categories config)).
  assert (match_rules d cats1 = None) as H1.
  { subst cats1. destruct (dict_mem C (categories config)); [assumption|].
    now apply match_rules_set_None. }
  destruct (dict_get C cats1) as [kws|] eqn:Hget; simpl.
  - destruct (in_list k kws) eqn:Hin.
    + exfalso. apply in_list_iff in Hin.
      pose proof (match_rules_None_In _ _ _ _ H1 (dict_get_In _ _ _ Hget)) as Hf.
      unfold any_keyword in Hf.
      assert (existsb (fun keyword => py_in (lower keyword) d) kws = true)
        by (apply existsb_exists; eauto).
      congruence.
    + apply match_rules_set_Some; [assumption | now apply any_keyword_last].
  - apply match_rules_set_Some; [assumption | now apply (any_keyword_last d [])].
Qed.

(** A learned keyword makes rule matching succeed on every description it
    occurs in, whatever was there before. *)
Lemma match_rules_learned d C k config :
  py_in (lower k) d = true ->
  exists c, match_rules d (categories (add_keyword C k config)) = Some c.
Proof.
  intros Hk.
  destruct (match_rules d (categories (add_keyword C k config))) as [c|] eqn:E;
    [eauto|].
  exfalso.
  pose proof (dict_get_In _ _ _ (add_keyword_get C k config)) as Hin.
  pose proof (match_rules_None_In _ _ _ _ E Hin) as Hf.
  assert (any_keyword d (learned_list C k config) = true); [|congruence].
  apply existsb_exists. exists k. split; [apply learned_list_In | assumption].
Qed.

Lemma count_occ_learned category keyword config :
  (count_occ string_dec (default [] (dict_get category (categories config))) keyword <= 1)%nat ->
  count_occ string_dec (learned_list category keyword config) keyword = 1%nat.
Proof.
  unfold learned_list.
  set (old := default [] (dict_get category (categories config))).
  intros Hle. destruct (in_list keyword old) eqn:E.
  - apply in_list_iff in E. apply (count_occ_In string_dec) in E. lia.
  - assert (~ In keyword old) as Hn
        by (intros Hin; apply in_list_iff in Hin; congruence).
    apply (count_occ_not_In string_dec) in Hn.
    rewrite count_occ_app, Hn. simpl.
    destruct (string_dec keyword keyword); [reflexivity | congruence].
Qed.

End Relearning.

(** C4 (amended). Calling [update_config_with_new_keyword] twice with the
    same category and keyword leaves the same rule set as calling it once,
    whatever the rule set was and however the file writes end.  After the
    first call the category's list holds the keyword; it holds it exactly
    once provided it held it at most once before. *)
Theorem learning_twice_is_learning_once (category keyword : string) (w : World) :
  let w1 := snd (update_config_with_new_keyword category keyword w) in
  let w2 := snd (update_config_with_new_keyword category keyword w1) in
  fst (update_config_with_new_keyword category keyword w) = Ok tt
  /\ fst (update_config_with_new_keyword category keyword w1) = Ok tt
  /\ categorization_config w2 = categorization_config w1
  /\ exists l,
       dict_get category (categories (categorization_config w1)) = Some l
       /\ In keyword l
       /\ ((count_occ string_dec
              (default [] (dict_get category (categories (categorization_config w))))
              keyword <= 1)%nat ->
           count_occ string_dec l keyword = 1%nat).
Proof.
  cbv zeta. rewrite !update_config_returns. simpl.
  split; [reflexivity|]. split; [reflexivity|].
  split; [apply add_keyword_idem|].
  exists (learned_list category keyword (categorization_config w)).
  split; [apply add_keyword_get|].
  split; [apply learned_list_In | apply count_occ_learned].
Qed.

(** C3 (amended). A merchant name and amount that reach the learning
    fallback, answered (after any rejected lines) by a line selecting [C]:
    the classifier returns [C]; the key term of the merchant name is at the
    end of [C]'s keyword list unless the list held it already; the terminal
    input is consumed up to that line; the rule store file holds the new
    rule set when the write goes through; and when the key term is a
    case-insensitive substring of the merchant name, the same call made
    again returns [C] by rule matching and leaves the world as it is. *)
Theorem learning_fallback_learns_key_term
    (merchant_name : string) (amount : float) (w : World)
    (invalid : list string) (line : string) (rest : list tty_event) (C : string) :
  ~ override_applies merchant_name amount ->
  no_keyword_matches (categories (categorization_config w)) merchant_name ->
  Forall invalid_line invalid ->
  stdin w = (map Line invalid ++ Line line :: rest)%list ->
  selects line C ->
  let key_term := extract_key_term_for_config merchant_name in
  exists w',
    categorize_transaction_with_amount merchant_name amount w = (Ok C, w')
    /\ dict_get C (categories (categorization_config w'))
       = Some (learned_list C key_term (categorization_config w))
    /\ stdin w' = rest
    /\ (next_write_succeeds w -> config_file w' = Some (categorization_config w'))
    /\ (ci_contains merchant_name key_term ->
        categorize_transaction_with_amount merchant_name amount w' = (Ok C, w')).
Proof.
  intros Ho Hnone Hinv Hin Hsel key_term.
  exists (after_update C key_term (set_stdin rest w)).
  apply not_override in Ho. apply match_rules_None in Hnone.
  split.
  { unfold categorize_transaction_with_amount. rewrite Ho.
    unfold mbind, M_bind, get_config. rewrite Hnone.
    unfold prompt_user_for_category.
    rewrite Hin, prompt_loop_skip_invalid by assumption.
    now apply prompt_loop_selects. }
  split; [apply add_keyword_get|].
  split; [reflexivity|].
  split.
  { unfold next_write_succeeds, after_update. simpl.
    destruct (fs_outcomes w) as [|[|r] l]; simpl; intros H;
      [reflexivity | reflexivity | destruct H]. }
  intros Hk. apply ci_contains_iff in Hk.
  apply categorize_by_rule; [assumption|].
  now apply match_rules_add_keyword.
Qed.

(** ** The adapters *)

Section AdapterFacts.

Variable to_datetime : Series -> result Series.
Variable str_float : float -> string.
Variable str_time : Z -> string.
Variable float_of_str : string -> option float.

(** A float64 column converts to floats as it is, missing values filled. *)
Lemma astype_float_numeric (xs : list float) :
  astype_float float_of_str (map fillna0 (map CFloat xs)) = Ok (map or_zero xs).
Proof.
  unfold astype_float. induction xs as [|x xs IH]; [reflexivity|].
  cbn [map mapM]. unfold mbind, result_bind in *. rewrite IH.
  unfold or_zero, fillna0. destruct (PyFloat.is_nan x); reflexivity.
Qed.

(** Reading a row of the frame reads the columns at the row's position. *)
Lemma row_at_get (df : DataFrame) (name : string) (s : Series) (i : nat) (v : cell) :
  dict_get name df = Some s -> nth_error s i = Some v ->
  dict_get name (row_at df i) = Some v.
Proof.
  intros Hget Hnth. induction df as [|[name' s'] df IH]; [discriminate|].
  simpl in Hget. unfold row_at in *. cbn [flat_map].
  destruct (String.eqb name name') eqn:E.
  - injection Hget as ->. rewrite Hnth. simpl. now rewrite E.
  - destruct (nth_error s' i); simpl; [rewrite E|]; now apply IH.
Qed.

Lemma should_skip_matching (self : ProcessorAttrs) (col : string) (r : row)
      (c : cell) (p : string) :
  description_column_name self = Some col -> col <> "" ->
  dict_get col r = Some c ->
  In p (skip_patterns self) ->
  ci_contains (py_str str_float str_time c) p ->
  _should_skip_transaction str_float str_time self r = true.
Proof.
  intros Hcol Hne Hget Hp Hm. unfold _should_skip_transaction.
  assert (is_empty_list (skip_patterns self) = false) as ->
      by (destruct (skip_patterns self); [destruct Hp | reflexivity]).
  rewrite Hcol.
  assert (truthy (Some col) = true) as ->
      by (destruct col; [congruence | reflexivity]).
  cbn [orb negb]. rewrite Hget. apply existsb_exists. exists p.
  split; [assumption | now apply ci_contains_iff].
Qed.

(** A skipped row contributes nothing to the loop. *)
Lemma process_rows_skip (self : CSVProcessor) (before after : list row) (r : row) :
  _should_skip_transaction str_float str_time self r = true ->
  process_rows str_float str_time self (before ++ r :: after)%list
  = process_rows str_float str_time self (before ++ after)%list.
Proof.
  intros Hskip. induction before as [|r0 before IH]; simpl.
  - now rewrite Hskip.
  - now rewrite IH.
Qed.

End AdapterFacts.

(** C8. An adapter with a description column and skip patterns drops every
    row whose description contains one of the patterns, case-insensitively:
    the row tests as skipped and [process] returns exactly what its loop
    returns on the other rows of the prepared frame. *)
Theorem skip_pattern_row_is_excluded
    (to_datetime : Series -> result Series)
    (str_float : float -> string) (str_time : Z -> string)
    (self : CSVProcessor) (col : string) (df df' : DataFrame)
    (before after : list row) (r : row) (c : cell) (p : string) :
  description_column_name self = Some col -> col <> "" ->
  In p (skip_patterns self) ->
  _prepare_dataframe to_datetime self df = Ok df' ->
  iterrows df' = (before ++ r :: after)%list ->
  dict_get col r = Some c ->
  ci_contains (py_str str_float str_time c) p ->
  _should_skip_transaction str_float str_time self r = true
  /\ process to_datetime str_float str_time self df
     = process_rows str_float str_time self (before ++ after)%list.
Proof.
  intros Hcol Hne Hp Hprep Hrows Hget Hm.
  assert (_should_skip_transaction str_float str_time self r = true) as Hskip
      by (eapply should_skip_matching; eauto).
  split; [assumption|].
  unfold process. rewrite Hprep. unfold mbind, result_bind.
  rewrite Hrows. now apply process_rows_skip.
Qed.

(** C9. On a frame whose Debit and Credit columns are numeric, the Citi
    adapter's consolidation succeeds and gives every row the amount Debit
    plus Credit, a missing value counting as 0; the row with Debit 32.50 and
    no Credit gets the amount 32.50. *)
Theorem citi_amount_is_debit_plus_credit
    (float_of_str : string -> option float)
    (df : DataFrame) (debit credit : list float) :
  dict_get "Debit" df = Some (map CFloat debit) ->
  dict_get "Credit" df = Some (map CFloat credit) ->
  (exists df',
      _consolidate_columns (CitiCSVProcessor float_of_str) df = Ok df'
      /\ forall (i : nat) (d c : float),
           nth_error debit i = Some d -> nth_error credit i = Some c ->
           dict_get "Amount" (row_at df' i)
           = Some (CFloat (PyFloat.add (or_zero d) (or_zero c))))
  /\ _consolidate_columns (CitiCSVProcessor float_of_str) citi_example_frame
     = Ok (citi_example_frame ++ [("Amount", [CFloat (PyFloat.of_scaled 65 (-1))])])%list.
Proof.
  intros Hd Hc. split; [|reflexivity].
  simpl. unfold citi_consolidate_columns, getitem.
  rewrite Hd, Hc. unfold mbind, result_bind.
  rewrite !astype_float_numeric. eexists. split; [reflexivity|].
  intros i d c Hdi Hci.
  eapply row_at_get; [apply dict_get_set|].
  rewrite nth_error_map.
  assert (nth_error (zip_with PyFloat.add (map or_zero debit) (map or_zero credit)) i
          = Some (PyFloat.add (or_zero d) (or_zero c))) as ->; [|reflexivity].
  clear Hd Hc. revert credit i Hdi Hci.
  induction debit as [|d0 debit IH]; intros [|c0 credit] [|i] Hdi Hci;
    simpl in *; try discriminate.
  - congruence.
  - now apply IH.
Qed.

(** ** When the key term occurs in the merchant name *)

Section KeyTerm.

#[local] Arguments String.append : simpl nomatch.

Lemma lower_char_idem (c : ascii) : lower_char (lower_char c) = lower_char c.
Proof. destruct c as [[] [] [] [] [] [] [] []]; reflexivity. Qed.

Lemma lower_idem (s : string) : lower (lower s) = lower s.
Proof. induction s as [|c s IH]; simpl; [reflexivity|]. now rewrite lower_char_idem, IH. Qed.

Lemma lower_take (n : nat) (s : string) : lower (take n s) = take n (lower s).
Proof.
  revert s. induction n as [|n IH]; intros [|c s]; simpl; try reflexivity.
  now rewrite IH.
Qed.

Lemma occurs_in_refl (s : string) : occurs_in s s.
Proof. exists "", "". simpl. now rewrite append_nil_r. Qed.

Lemma occurs_in_trans (x y z : string) : occurs_in x y -> occurs_in y z -> occurs_in x z.
Proof.
  intros (a & b & ->) (a' & b' & ->).
  exists (a' ++ a), (b ++ b'). now rewrite !append_assoc.
Qed.

Lemma occurs_in_cons (c : ascii) (x s : string) : occurs_in x s -> occurs_in x (String c s).
Proof. intros (a & b & ->). now exists (String c a), b. Qed.

Lemma take_prefix (n : nat) (s : string) : exists b, s = take n s ++ b.
Proof.
  revert s. induction n as [|n IH]; intros s; simpl.
  - now exists s.
  - destruct s as [|c s]; [now exists ""|].
    destruct (IH s) as [b E]. exists b. simpl. now rewrite <- E.
Qed.

Lemma take_occurs (n : nat) (s : string) : occurs_in (take n s) s.
Proof. destruct (take_prefix n s) as [b E]. now exists "", b. Qed.

Lemma drop_occurs (n : nat) (s : string) : occurs_in (drop n s) s.
Proof.
  revert s. induction n as [|n IH]; intros [|c s]; simpl;
    try apply occurs_in_refl.
  apply occurs_in_cons, IH.
Qed.

Lemma lstrip_occurs (s : string) : occurs_in (lstrip s) s.
Proof.
  induction s as [|c s IH]; simpl; [apply occurs_in_refl|].
  destruct (is_space c); [now apply occurs_in_cons | apply occurs_in_refl].
Qed.

Lemma rstrip_prefix (s : string) : exists b, s = rstrip s ++ b.
Proof.
  induction s as [|c s IH]; simpl; [now exists ""|].
  destruct (is_space c && is_empty (rstrip s)); [now exists (String c s)|].
  destruct IH as [b E]. exists b. simpl. now rewrite <- E.
Qed.

Lemma rstrip_occurs (s : string) : occurs_in (rstrip s) s.
Proof. destruct (rstrip_prefix s) as [b E]. now exists "", b. Qed.

Lemma strip_occurs (s : string) : occurs_in (strip s) s.
Proof. eapply occurs_in_trans; [apply rstrip_occurs | apply lstrip_occurs]. Qed.

Lemma remove_first_prefix_occurs (prefixes : list string) (s : string) :
  occurs_in (remove_first_prefix prefixes s) s.
Proof.
  induction prefixes as [|p prefixes IH]; simpl; [apply occurs_in_refl|].
  destruct (startswith _ _); [|exact IH].
  eapply occurs_in_trans; [apply strip_occurs | apply drop_occurs].
Qed.

(** Every word of [split] occurs in the text. *)
Lemma split_from_occurs (cur s w : string) :
  In w (split_from cur s) -> occurs_in w (cur ++ s).
Proof.
  revert cur. induction s as [|c s IH]; intros cur; simpl.
  - destruct (is_empty cur); simpl; [tauto|].
    intros [<-|[]]. rewrite append_nil_r. apply occurs_in_refl.
  - destruct (is_space c).
    + destruct (is_empty cur).
      * intros H. destruct (IH "" H) as (a & b & E). simpl in E.
        exists (cur ++ String c a), b. rewrite append_assoc. simpl. now rewrite E.
      * intros [<-|H].
        -- exists "", (String c s). reflexivity.
        -- destruct (IH "" H) as (a & b & E). simpl in E.
           exists (cur ++ String c a), b. rewrite append_assoc. simpl. now rewrite E.
    + intros H. apply IH in H. now rewrite append_assoc in H.
Qed.

Lemma split_occurs (s w : string) : In w (split s) -> occurs_in w s.
Proof. apply (split_from_occurs "" s w). Qed.

Lemma meaningful_loop_In (words acc : list string) (x : string) :
  In x (meaningful_loop words acc) -> In x acc \/ exists w, In w words /\ x = lower w.
Proof.
  revert acc. induction words as [|word words IH]; intros acc; cbn [meaningful_loop];
    [auto|].
  destruct (_ && _).
  - destruct (2 <=? _)%nat.
    + intros H. apply in_app_or in H as [H|[<-|[]]]; [auto|].
      right. exists word. split; [now left | reflexivity].
    + intros H. apply IH in H as [H|(w & Hw & ->)].
      * apply in_app_or in H as [H|[<-|[]]]; [auto|].
        right. exists word. split; [now left | reflexivity].
      * right. exists w. split; [now right | reflexivity].
  - intros H. apply IH in H as [H|(w & Hw & ->)]; [auto|].
    right. exists w. split; [now right | reflexivity].
Qed.

Lemma firstn_In {A} (n : nat) (l : list A) (x : A) : In x (firstn n l) -> In x l.
Proof.
  revert l. induction n as [|n IH]; intros [|y l]; simpl; try tauto.
  intros [H|H]; [now left | right; now apply IH].
Qed.

Lemma lower_occurs_ci (description w : string) :
  occurs_in w description -> ci_contains description (lower w).
Proof.
  intros (a & b & ->). exists a, w, b. split; [reflexivity|].
  now rewrite lower_idem.
Qed.

(** With at most one meaningful word the key term is a single word of the
    description, or its first ten characters. *)
Lemma single_word_key_term_occurs (description : string) :
  (length (meaningful_words_of description) <= 1)%nat ->
  ci_contains description (extract_key_term_for_config description).
Proof.
  unfold meaningful_words_of, extract_key_term_for_config. cbv zeta.
  set (clean_desc := remove_first_prefix _ description).
  set (words := split clean_desc).
  assert (forall w, In w words -> occurs_in w description) as Hwords.
  { intros w Hw. apply (occurs_in_trans w clean_desc).
    - apply split_occurs. exact Hw.
    - apply remove_first_prefix_occurs. }
  destruct (meaningful_loop (firstn 3 words) []) as [|m [|m' l]] eqn:E;
    cbn [length Nat.ltb Nat.leb join]; intros Hlen; try lia.
  - destruct words as [|w0 words'].
    + apply ci_contains_iff. rewrite lower_take, lower_idem.
      destruct (take_occurs 10 (lower description)) as (a & b & Hab).
      rewrite Hab at 2. apply py_in_intro.
    + apply lower_occurs_ci, Hwords. now left.
  - assert (In m (meaningful_loop (firstn 3 words) [])) as Hm
        by (rewrite E; now left).
    apply meaningful_loop_In in Hm as [[]|(w & Hw & ->)].
    apply lower_occurs_ci, Hwords.
    apply (firstn_In 3). exact Hw.
Qed.

End KeyTerm.

(** X3. With at most one meaningful word the key term is a single word of
    the description, or its first ten characters: it occurs in the
    description up to case. *)
Theorem key_term_occurs (description : string) :
  (length (meaningful_words_of description) <= 1)%nat ->
  ci_contains description (extract_key_term_for_config description).
Proof.
  intros Hlen. apply single_word_key_term_occurs. exact Hlen.
Qed.

(** ** The normalizer's word bound *)

Section WordBound.

#[local] Arguments String.append : simpl nomatch.

Lemma is_space_lower_char (c : ascii) : is_space (lower_char c) = is_space c.
Proof. destruct c as [[] [] [] [] [] [] [] []]; reflexivity. Qed.

Lemma is_space_upper_char (c : ascii) : is_space (upper_char c) = is_space c.
Proof. destruct c as [[] [] [] [] [] [] [] []]; reflexivity. Qed.

Lemma no_space_title_from (b : bool) (s : string) :
  no_space s -> no_space (title_from b s).
Proof.
  unfold no_space. revert b. induction s as [|c s IH]; intros b; simpl; [auto|].
  rewrite !andb_true_iff. intros [Hc Hs]. split; [|now apply IH].
  destruct b; now rewrite ?is_space_lower_char, ?is_space_upper_char.
Qed.

Lemma no_space_take (n : nat) (s : string) : no_space s -> no_space (take n s).
Proof.
  unfold no_space. revert s. induction n as [|n IH]; intros [|c s]; simpl; auto.
  rewrite !andb_true_iff. intros [Hc Hs]. auto.
Qed.

Lemma no_space_snoc (cur : string) (c : ascii) :
  no_space cur -> is_space c = false -> no_space (cur ++ String c "").
Proof.
  unfold no_space. intros Hcur Hc. induction cur as [|x cur IH]; simpl in *.
  - now rewrite Hc.
  - apply andb_true_iff in Hcur as [Hx Hcur]. rewrite Hx. now apply IH.
Qed.

(** The words [split] returns hold no whitespace. *)
Lemma split_from_no_space (cur s : string) :
  no_space cur -> Forall no_space (split_from cur s).
Proof.
  revert cur. induction s as [|c s IH]; intros cur Hcur; simpl.
  - destruct (is_empty cur); auto.
  - destruct (is_space c) eqn:Ec.
    + destruct (is_empty cur); [|constructor; [assumption|]];
        apply IH; reflexivity.
    + apply IH. now apply no_space_snoc.
Qed.

(** A token is its own only word. *)
Lemma split_from_token (cur s : string) :
  no_space s -> split_from cur s = if is_empty (cur ++ s) then [] else [cur ++ s].
Proof.
  unfold no_space. revert cur. induction s as [|c s IH]; intros cur Hs; simpl in *.
  - now rewrite append_nil_r.
  - apply andb_true_iff in Hs as [Hc Hs]. apply negb_true_iff in Hc. rewrite Hc.
    rewrite (IH _ Hs), append_assoc. reflexivity.
Qed.

Lemma word_count_token (s : string) : no_space s -> (word_count s <= 1)%nat.
Proof.
  intros H. unfold word_count, split. rewrite (split_from_token _ _ H).
  destruct (is_empty _); simpl; lia.
Qed.

(** A token, a blank, then more text: the words are the token's and the
    text's. *)
Lemma split_from_token_blank (cur a b : string) :
  no_space a ->
  split_from cur (a ++ " " ++ b)
  = ((if is_empty (cur ++ a)%string then [] else [(cur ++ a)%string]) ++ split b)%list.
Proof.
  unfold no_space. revert cur. induction a as [|c a IH]; intros cur Ha; simpl in *.
  - rewrite append_nil_r. change (is_space " ") with true. cbv iota.
    destruct (is_empty cur); reflexivity.
  - apply andb_true_iff in Ha as [Hc Ha]. apply negb_true_iff in Hc. rewrite Hc.
    change (String c (a ++ String " " b)) with (String c (a ++ " " ++ b)).
    rewrite (IH _ Ha), append_assoc. reflexivity.
Qed.

Lemma word_count_join (l : list string) :
  Forall no_space l -> (length l <= 2)%nat -> (word_count (join " " l) <= 2)%nat.
Proof.
  intros Hl Hlen. destruct l as [|x [|y [|z l]]]; simpl in Hlen; try lia.
  - cbv. lia.
  - inversion Hl as [|? ? Hx _]; subst.
    pose proof (word_count_token x Hx). simpl. lia.
  - inversion Hl as [|? ? Hx Hl']; subst. inversion Hl' as [|? ? Hy _]; subst.
    unfold word_count, split. cbn [join].
    rewrite (split_from_token_blank "" x y Hx), length_app.
    pose proof (word_count_token y Hy) as Hy1. unfold word_count in Hy1.
    destruct (is_empty _); simpl; lia.
Qed.

Lemma clean_words_loop_no_space (words clean_words : list string) :
  Forall no_space words -> Forall no_space clean_words ->
  Forall no_space (clean_words_loop words clean_words).
Proof.
  intros Hw. revert clean_words.
  induction Hw as [|word words Hword _ IH]; intros clean_words Hc;
    cbn [clean_words_loop]; [assumption|].
  destruct (any_char is_digit word && any_char is_separator word); [now apply IH|].
  destruct ((len word =? 2)%nat && isupper word); [now apply IH|].
  destruct (in_list (lower word) location_words); [now apply IH|].
  assert (Forall no_space
            (if (1 <? len word)%nat then (clean_words ++ [title word])%list
             else clean_words)) as Hc'.
  { destruct (1 <? len word)%nat; [|assumption].
    apply Forall_app. split; [assumption|].
    constructor; [|constructor]. now apply no_space_title_from. }
  destruct (2 <=? _)%nat; [assumption | now apply IH].
Qed.

(** Whenever a token is left once the processor prefixes are stripped, the
    unknown-merchant branch returns at most two words. *)
Lemma unknown_merchant_two_words (raw_description : string) :
  split (remove_prefixes ["SQ *"; "TST*"; "SP "; "FSP*"; "6602-"] (strip raw_description))
  <> [] ->
  (word_count (unknown_merchant_name raw_description) <= 2)%nat.
Proof.
  intros Hne. unfold unknown_merchant_name.
  set (words := split _) in *.
  assert (Forall no_space words) as Hw by (apply split_from_no_space; reflexivity).
  destruct (0 <? length (clean_words_loop words []))%nat.
  - apply word_count_join.
    + apply Forall_take. apply clean_words_loop_no_space; [assumption | constructor].
    + rewrite length_take. lia.
  - destruct words as [|w0 words']; [congruence|].
    inversion Hw; subst.
    assert (no_space (take 15 (title w0))) as Ht
      by (apply no_space_take, no_space_title_from; assumption).
    pose proof (word_count_token _ Ht). lia.
Qed.

(** X1. Whenever a token is left of the raw description once the processor
    prefixes are stripped, the normalizer returns at most two words, on the
    known-merchant branches as on the unknown-merchant one. *)
Lemma normalizer_two_words_when_a_token_is_left (raw_description : string) :
  split (remove_prefixes ["SQ *"; "TST*"; "SP "; "FSP*"; "6602-"] (strip raw_description))
  <> [] ->
  (word_count (extract_merchant_name raw_description) <= 2)%nat.
Proof.
  intros Hne. unfold extract_merchant_name. cbv zeta.
  repeat match goal with
         | |- (word_count (if ?b then String _ _ else _) <= 2)%nat =>
             destruct b; [vm_compute; lia|]
         end.
  destruct (py_in "spokane" _); [|now apply unknown_merchant_two_words].
  repeat match goal with
         | |- (word_count (if ?b then String _ _ else _) <= 2)%nat =>
             destruct b; [vm_compute; lia|]
         end.
  vm_compute. lia.
Qed.

End WordBound.

(** C7, at the failing input.  The raw description "SQ * TST*" matches no
    known merchant; stripping the processor prefixes leaves nothing, so the
    last resort title-cases the whole raw description and returns
    "Sq * Tst*": three whitespace-separated words. *)
Theorem normalizer_returns_three_words :
  extract_merchant_name "SQ * TST*" = "Sq * Tst*"
  /\ split (extract_merchant_name "SQ * TST*") = ["Sq"; "*"; "Tst*"]
  /\ word_count (extract_merchant_name "SQ * TST*") = 3%nat.
Proof. repeat split; reflexivity. Qed.

(** ** Instances and counterexamples *)

Lemma costco_over_100_is_shopping_witness :
  ci_startswith "COSTCO-Kirkland Signature" "costco-"
  /\ PyFloat.gt (PyFloat.of_Z 250) (PyFloat.of_Z 100) = true
  /\ categorize_transaction_with_amount "COSTCO-Kirkland Signature" (PyFloat.of_Z 250)
       (fresh_world [])
     = (Ok "Shopping", fresh_world []).
Proof.
  assert (ci_startswith "COSTCO-Kirkland Signature" "costco-") as Hp
      by (exists "COSTCO-", "Kirkland Signature"; split; reflexivity).
  assert (PyFloat.gt (PyFloat.of_Z 250) (PyFloat.of_Z 100) = true) as Ha
      by reflexivity.
  split; [exact Hp|]. split; [exact Ha|].
  exact (costco_over_100_is_shopping _ _ (fresh_world []) Hp Ha).
Defined.

Lemma first_matching_category_wins_witness :
  let w := mkWorld (mkRuleSet [("Transportation", ["uber"; "lyft"]);
                               ("Food", ["restaurant"; "starbucks"]);
                               ("Shopping", ["star"])]
                              (Some "Other")) [] [] None in
  categorize_transaction_with_amount "STARBUCKS" (PyFloat.of_Z 5) w = (Ok "Food", w).
Proof.
  intros w.
  apply (first_matching_category_wins "STARBUCKS" (PyFloat.of_Z 5) w
           [("Transportation", ["uber"; "lyft"])] [("Shopping", ["star"])]
           "Food" ["restaurant"; "starbucks"] "starbucks").
  - intros H. apply costco_override_iff in H. vm_compute in H. discriminate.
  - reflexivity.
  - apply match_rules_None. reflexivity.
  - simpl. auto.
  - apply ci_contains_iff. reflexivity.
Defined.

Lemma learning_fallback_learns_key_term_witness :
  let w := fresh_world [Line ""; Line "abc"; Line "9"; Line " 3 "; Line "1"] in
  exists w',
    categorize_transaction_with_amount "Corner Bakery" (PyFloat.of_Z 12) w
    = (Ok "Shopping", w')
    /\ dict_get "Shopping" (categories (categorization_config w'))
       = Some ["amazon"; "store"; "corner bakery"]
    /\ stdin w' = [Line "1"]
    /\ (next_write_succeeds w -> config_file w' = Some (categorization_config w'))
    /\ (ci_contains "Corner Bakery" "corner bakery" ->
        categorize_transaction_with_amount "Corner Bakery" (PyFloat.of_Z 12) w'
        = (Ok "Shopping", w')).
Proof.
  intros w.
  apply (learning_fallback_learns_key_term "Corner Bakery" (PyFloat.of_Z 12) w
           [""; "abc"; "9"] " 3 " [Line "1"] "Shopping").
  - intros H. apply costco_override_iff in H. vm_compute in H. discriminate.
  - apply match_rules_None. reflexivity.
  - constructor; [left; reflexivity|].
    constructor; [right; left; reflexivity|].
    constructor; [|constructor].
    right. right. exists 9%Z. split; [reflexivity | right; simpl; lia].
  - reflexivity.
  - exists 3%Z. split; [reflexivity|]. split; [lia | reflexivity].
Defined.

(** C3, as stated, fails: the key term of "Acme Inc Tools" is "acme tools",
    which does not occur in the name.  After the first call learned it for
    "Shopping" no rule matches the name, and the same call made again reads
    the terminal once more. *)
Lemma relearning_prompts_again :
  let w := fresh_world [Line "3"; Line "3"] in
  let amount := PyFloat.of_Z 5 in
  exists w1 w2,
    costco_override (lower "Acme Inc Tools") amount = false
    /\ match_rules (lower "Acme Inc Tools") (categories (categorization_config w)) = None
    /\ categorize_transaction_with_amount "Acme Inc Tools" amount w = (Ok "Shopping", w1)
    /\ extract_key_term_for_config "Acme Inc Tools" = "acme tools"
    /\ dict_get "Shopping" (categories (categorization_config w1))
       = Some ["amazon"; "store"; "acme tools"]
    /\ config_file w1 = Some (categorization_config w1)
    /\ stdin w1 = [Line "3"]
    /\ match_rules (lower "Acme Inc Tools") (categories (categorization_config w1)) = None
    /\ categorize_transaction_with_amount "Acme Inc Tools" amount w1 = (Ok "Shopping", w2)
    /\ stdin w2 = [].
Proof.
  intros w amount.
  exists (snd (categorize_transaction_with_amount "Acme Inc Tools" amount w)).
  exists (snd (categorize_transaction_with_amount "Acme Inc Tools" amount
                 (snd (categorize_transaction_with_amount "Acme Inc Tools" amount w)))).
  repeat split; vm_compute; reflexivity.
Qed.

Lemma learning_twice_is_learning_once_witness :
  let w := fresh_world [] in
  let w1 := snd (update_config_with_new_keyword "Food" "bakery" w) in
  exists l,
    dict_get "Food" (categories (categorization_config w1)) = Some l
    /\ count_occ string_dec l "bakery" = 1%nat.
Proof.
  intros w w1.
  destruct (learning_twice_is_learning_once "Food" "bakery" w)
    as (_ & _ & _ & l & Hl & _ & Hcount).
  exists l. split; [exact Hl|].
  apply Hcount. vm_compute. lia.
Defined.

(** C4, as stated, fails on a rule set whose list already repeats the
    keyword: the call leaves the list as it is, with the keyword twice. *)
Lemma repeated_keyword_stays_repeated :
  let w := mkWorld (mkRuleSet [("Food", ["cafe"; "cafe"])] (Some "Other")) [] [] None in
  let w1 := snd (update_config_with_new_keyword "Food" "cafe" w) in
  dict_get "Food" (categories (categorization_config w1)) = Some ["cafe"; "cafe"]
  /\ count_occ string_dec ["cafe"; "cafe"] "cafe" = 2%nat
  /\ count_occ string_dec ["cafe"; "cafe"] "cafe" <> 1%nat.
Proof.
  split; [reflexivity|]. split; [reflexivity|].
  vm_compute. discriminate.
Qed.

Lemma interrupt_yields_default_category_witness :
  prompt_user_for_category "Corner Bakery" (PyFloat.of_Z 12)
    (fresh_world [Line "x"; Interrupt; Line "1"])
  = (Ok "Other", fresh_world [Line "1"]).
Proof.
  apply (interrupt_yields_default_category "Corner Bakery" (PyFloat.of_Z 12)
           (fresh_world [Line "x"; Interrupt; Line "1"]) ["x"] [Line "1"]).
  - constructor; [|constructor]. right. left. reflexivity.
  - reflexivity.
Defined.

Lemma new_category_is_appended_witness :
  exists w',
    update_config_with_new_keyword "Payment" "autopay" (fresh_world []) = (Ok tt, w')
    /\ categories (categorization_config w')
       = [("Food", ["restaurant"; "cafe"; "food"]);
          ("Transportation", ["uber"; "lyft"; "gas"; "parking"]);
          ("Shopping", ["amazon"; "store"]);
          ("Other", []);
          ("Payment", ["autopay"])]
    /\ default_category (categorization_config w') = Some "Other".
Proof.
  apply (new_category_is_appended "Payment" "autopay" (fresh_world [])).
  simpl. intros [H|[H|[H|[H|[]]]]]; discriminate.
Defined.

Lemma skip_pattern_row_is_excluded_witness :
  let to_datetime := fun s : Series => Ok s in
  let str_float := fun _ : float => "nan" in
  let str_time := fun _ : Z => "" in
  let float_of_str := fun _ : string => @None float in
  let self := SmartlyCSVProcessor float_of_str in
  let r := [("Date", CStr "2025-03-01"); ("Name", CStr "COSTCO WHSE #0001");
            ("Amount", CFloat (PyFloat.of_Z (-50)))] in
  let r' := [("Date", CStr "2025-03-02"); ("Name", CStr "Corner Bakery");
             ("Amount", CFloat (PyFloat.of_Z (-12)))] in
  _should_skip_transaction str_float str_time self r = true
  /\ process to_datetime str_float str_time self smartly_example_frame
     = process_rows str_float str_time self [r'].
Proof.
  intros to_datetime str_float str_time float_of_str self r r'.
  apply (skip_pattern_row_is_excluded to_datetime str_float str_time self "Name"
           smartly_example_frame smartly_example_frame [] [r'] r
           (CStr "COSTCO WHSE #0001") "costco").
  - reflexivity.
  - discriminate.
  - simpl. auto.
  - reflexivity.
  - reflexivity.
  - reflexivity.
  - exists "", "COSTCO", " WHSE #0001". split; reflexivity.
Defined.

Lemma citi_amount_is_debit_plus_credit_witness :
  let float_of_str := fun _ : string => @None float in
  exists df',
    _consolidate_columns (CitiCSVProcessor float_of_str) citi_example_frame = Ok df'
    /\ dict_get "Amount" (row_at df' 0)
       = Some (CFloat (PyFloat.add (or_zero (PyFloat.of_scaled 65 (-1)))
                                   (or_zero S754_nan))).
Proof.
  intros float_of_str.
  destruct (citi_amount_is_debit_plus_credit float_of_str citi_example_frame
              [PyFloat.of_scaled 65 (-1)] [S754_nan] eq_refl eq_refl)
    as [(df' & Hok & Hrow) _].
  exists df'. split; [exact Hok|].
  apply Hrow; reflexivity.
Defined.

(** ** The classifier over a run *)

Section RuleSetGrowth.

Implicit Types (items old new : list (string * list string)) (d : string).

Lemma grows_items_refl items : grows_items items items.
Proof.
  induction items as [|[c kws] items IH]; [constructor|].
  rewrite <- (app_nil_r kws) at 2. now constructor.
Qed.

Lemma grows_items_trans items1 items2 items3 :
  grows_items items1 items2 -> grows_items items2 items3 -> grows_items items1 items3.
Proof.
  intros H12. revert items3.
  induction H12 as [extra | c kws more old new _ IH]; intros items3 H23.
  - constructor.
  - inversion H23 as [|c' kws' more' old' new' Hrest]; subst.
    rewrite <- app_assoc. constructor. now apply IH.
Qed.

Lemma grows_items_app items extra : grows_items items (items ++ extra)%list.
Proof.
  induction items as [|[c kws] items IH]; simpl; [constructor|].
  rewrite <- (app_nil_r kws) at 2. now constructor.
Qed.

(** Appending to the list of an existing key grows the dict. *)
Lemma grows_items_set items k kws more :
  dict_get k items = Some kws ->
  grows_items items (dict_set k (kws ++ more)%list items).
Proof.
  induction items as [|[c' kws'] items IH]; simpl; [discriminate|].
  destruct (String.eqb k c').
  - intros [= ->]. constructor. apply grows_items_refl.
  - intros H. rewrite <- (app_nil_r kws') at 2. constructor. now apply IH.
Qed.

Lemma add_keyword_extends category keyword config :
  extends config (add_keyword category keyword config).
Proof.
  split; [reflexivity|]. unfold add_keyword. simpl.
  destruct (dict_mem category (categories config)) eqn:Hm.
  - apply dict_mem_get in Hm as [kws Hget]. rewrite Hget. simpl.
    destruct (in_list keyword kws); [apply grows_items_refl|].
    now apply grows_items_set.
  - rewrite dict_get_set. simpl.
    rewrite (dict_set_absent _ _ _ Hm), (dict_set_last _ _ _ _ Hm).
    apply grows_items_app.
Qed.

Lemma extends_refl config : extends config config.
Proof. split; [reflexivity | apply grows_items_refl]. Qed.

Lemma extends_trans c1 c2 c3 : extends c1 c2 -> extends c2 c3 -> extends c1 c3.
Proof.
  intros [Hd1 Hg1] [Hd2 Hg2]. split; [congruence|].
  eapply grows_items_trans; eassumption.
Qed.

Lemma prompt_loop_extends description events w :
  extends (categorization_config w)
          (categorization_config (snd (prompt_loop description events w))).
Proof.
  revert w. induction events as [|[line|] rest IH]; intros w.
  - apply extends_refl.
  - rewrite prompt_loop_Line. cbv zeta.
    destruct (is_empty (strip line)); [apply (IH (set_stdin rest w))|].
    destruct (py_int (strip line)) as [n|]; [|apply (IH (set_stdin rest w))].
    destruct (_ && _); [|apply (IH (set_stdin rest w))].
    unfold mbind, M_bind. rewrite update_config_returns. simpl.
    apply add_keyword_extends.
  - apply extends_refl.
Qed.

Lemma categorize_extends description amount w :
  extends (categorization_config w)
          (categorization_config
             (snd (categorize_transaction_with_amount description amount w))).
Proof.
  unfold categorize_transaction_with_amount.
  destruct (costco_override _ _); [apply extends_refl|].
  unfold mbind, M_bind, get_config.
  destruct (match_rules _ _); [apply extends_refl|].
  apply prompt_loop_extends.
Qed.

Lemma later_extends w w' :
  later w w' -> extends (categorization_config w) (categorization_config w').
Proof.
  induction 1 as [|w description amount w' _ IH]; [apply extends_refl|].
  eapply extends_trans; [apply categorize_extends | exact IH].
Qed.

(** Keywords are never taken away, so what matched keeps matching. *)
Lemma grows_items_match d old new c :
  grows_items old new -> match_rules d old = Some c ->
  exists c', match_rules d new = Some c'.
Proof.
  induction 1 as [extra | c0 kws more old new _ IH]; simpl; [discriminate|].
  unfold any_keyword at 2. rewrite existsb_app. fold (any_keyword d kws).
  destruct (any_keyword d kws); simpl; [eauto|].
  destruct (existsb _ more); [eauto | exact IH].
Qed.

Lemma grows_items_keys old new :
  grows_items old new -> exists extra, map fst new = (map fst old ++ extra)%list.
Proof.
  induction 1 as [extra | c0 kws more old new _ [extra IH]]; simpl.
  - now exists (map fst extra).
  - exists extra. now rewrite IH.
Qed.

Lemma grows_items_get old new c kws :
  grows_items old new -> dict_get c old = Some kws ->
  exists more, dict_get c new = Some (kws ++ more)%list.
Proof.
  induction 1 as [extra | c0 kws0 more old new _ IH]; simpl; [discriminate|].
  destruct (String.eqb c c0); [|exact IH].
  intros [= <-]. now exists more.
Qed.

End RuleSetGrowth.

(** C5. When the write of the rule store fails, the exception is caught:
    [update_config_with_new_keyword] returns normally, the in-memory rule
    set holds the keyword in the category's list, and the file is whatever
    the failed write left.  The mutation is not rolled back, then or later:
    in the state the call leaves, a merchant name the keyword occurs in and
    that no rule matched before is classified as the learned category
    (override apart); and in every state met later in the run, after any
    further calls of the classifier, the keyword is still in the category's
    list and every merchant name it occurs in is classified by rule
    matching, without a prompt and with the state left as it is. *)
Theorem failed_write_keeps_learned_keyword
    (category keyword : string) (w : World)
    (residue : option RuleSet) (rest : list write_outcome) :
  fs_outcomes w = WriteFails residue :: rest ->
  exists w',
    update_config_with_new_keyword category keyword w = (Ok tt, w')
    /\ (exists l, dict_get category (categories (categorization_config w')) = Some l
                  /\ In keyword l)
    /\ config_file w' = residue
    /\ (forall (merchant_name : string) (amount : float),
          ~ override_applies merchant_name amount ->
          ci_contains merchant_name keyword ->
          no_keyword_matches (categories (categorization_config w)) merchant_name ->
          categorize_transaction_with_amount merchant_name amount w' = (Ok category, w'))
    /\ forall w'' : World,
         later w' w'' ->
         (exists l, dict_get category (categories (categorization_config w'')) = Some l
                    /\ In keyword l)
         /\ forall (merchant_name : string) (amount : float),
              ~ override_applies merchant_name amount ->
              ci_contains merchant_name keyword ->
              exists c,
                categorize_transaction_with_amount merchant_name amount w'' = (Ok c, w'').
Proof.
  intros Hfs. exists (after_update category keyword w).
  split; [apply update_config_returns|].
  split.
  { exists (learned_list category keyword (categorization_config w)).
    split; [apply add_keyword_get | apply learned_list_In]. }
  split; [unfold after_update; now rewrite Hfs|].
  split.
  - intros merchant_name amount Ho Hk Hnone.
    apply ci_contains_iff in Hk. apply match_rules_None in Hnone.
    apply categorize_by_rule; [now apply not_override|].
    exact (match_rules_add_keyword _ category keyword _ Hnone Hk).
  - intros w'' Hlater.
    destruct (later_extends _ _ Hlater) as [_ Hg].
    change (categorization_config (after_update category keyword w))
      with (add_keyword category keyword (categorization_config w)) in Hg.
    split.
    + destruct (grows_items_get _ _ _ _ Hg
                  (add_keyword_get category keyword (categorization_config w)))
        as [more Hget].
      eexists. split; [exact Hget|].
      apply in_or_app. left. apply learned_list_In.
    + intros merchant_name amount Ho Hk. apply ci_contains_iff in Hk.
      destruct (match_rules_learned (lower merchant_name) category keyword
                  (categorization_config w) Hk) as [c Hc].
      destruct (grows_items_match _ _ _ _ Hg Hc) as [c' Hc'].
      exists c'. apply categorize_by_rule; [now apply not_override | exact Hc'].
Qed.

Lemma failed_write_keeps_learned_keyword_witness :
  let w := mkWorld (load_categorization_config FileNotFound) [Line "3"]
                   [WriteFails None] None in
  exists w',
    update_config_with_new_keyword "Food" "bakery" w = (Ok tt, w')
    /\ config_file w' = None
    /\ categorize_transaction_with_amount "Corner Bakery" (PyFloat.of_Z 12) w'
       = (Ok "Food", w')
    /\ let w'' := snd (categorize_transaction_with_amount "Hardware Shop"
                         (PyFloat.of_Z 40) w') in
       (exists l, dict_get "Food" (categories (categorization_config w'')) = Some l
                  /\ In "bakery" l)
       /\ exists c, categorize_transaction_with_amount "City Bakery" (PyFloat.of_Z 9) w''
                    = (Ok c, w'').
Proof.
  intros w.
  destruct (failed_write_keeps_learned_keyword "Food" "bakery" w None [] eq_refl)
    as (w' & Hret & _ & Hfile & Hnow & Hlater).
  exists w'. split; [exact Hret|]. split; [exact Hfile|]. split.
  - apply Hnow.
    + intros H. apply costco_override_iff in H. vm_compute in H. discriminate.
    + exists "Corner ", "Bakery", "". split; reflexivity.
    + apply match_rules_None. reflexivity.
  - cbv zeta.
    destruct (Hlater
                (snd (categorize_transaction_with_amount "Hardware Shop"
                        (PyFloat.of_Z 40) w'))
                (later_call w' "Hardware Shop" (PyFloat.of_Z 40) _ (later_now _)))
      as [Hkept Hmatch].
    split; [exact Hkept|].
    apply Hmatch.
    + intros H. apply costco_override_iff in H. vm_compute in H. discriminate.
    + exists "City ", "Bakery", "". split; reflexivity.
Defined.


(** X6. Whatever a call of the classifier does (override, rule match,
    learning, interrupt, end of input), the rule set it leaves extends the
    one it found: the default category is the same, the categories keep
    their order and their keywords, new keywords come after the old ones of
    their category and new categories after the old categories. *)
Theorem classifier_only_extends_rule_set
    (description : string) (amount : float) (w : World) :
  let config := categorization_config w in
  let config' := categorization_config
                   (snd (categorize_transaction_with_amount description amount w)) in
  default_category config' = default_category config
  /\ (exists extra, map fst (categories config')
                    = (map fst (categories config) ++ extra)%list)
  /\ forall c kws, dict_get c (categories config) = Some kws ->
                   exists more, dict_get c (categories config') = Some (kws ++ more)%list.
Proof.
  cbv zeta. destruct (categorize_extends description amount w) as [Hd Hg].
  split; [exact Hd|]. split; [now apply grows_items_keys|].
  intros c kws Hget. eapply grows_items_get; eassumption.
Qed.

(** X7. A merchant name the rules recognize is recognized for the rest of
    the run: after any further calls of the classifier, whatever they
    learned, classifying it returns a category without a prompt and leaves
    the world as it is. *)
Theorem recognized_merchant_is_never_prompted_again
    (merchant_name : string) (c : string) (w w' : World) :
  match_rules (lower merchant_name) (categories (categorization_config w)) = Some c ->
  later w w' ->
  forall amount : float,
  exists c', categorize_transaction_with_amount merchant_name amount w' = (Ok c', w').
Proof.
  intros Hm Hlater amount.
  destruct (later_extends _ _ Hlater) as [_ Hg].
  destruct (grows_items_match _ _ _ _ Hg Hm) as [c' Hc'].
  unfold categorize_transaction_with_amount.
  destruct (costco_override _ _); [now exists "Shopping"|].
  unfold mbind, M_bind, get_config. rewrite Hc'. now exists c'.
Qed.

Section ClassifierOutcome.

Implicit Types (items : list (string * list string)) (d : string) (w : World).

Lemma match_rules_key d items c : match_rules d items = Some c -> In c (map fst items).
Proof.
  induction items as [|[c' kws] items IH]; simpl; [discriminate|].
  destruct (any_keyword d kws); [intros [= ->]; now left | right; now apply IH].
Qed.

(** What the prompt can give: a category of the enumerated list or the
    default category; or, at the end of the terminal input, EOFError with
    nothing changed but the input consumed. *)
Lemma prompt_loop_outcome description events w :
  match prompt_loop description events w with
  | (Ok c, _) =>
      In c AVAILABLE_CATEGORIES
      \/ c = default "Other" (default_category (categorization_config w))
  | (Raise e, w') =>
      e = EOFError
      /\ w' = mkWorld (categorization_config w) [] (fs_outcomes w) (config_file w)
  end.
Proof.
  revert w. induction events as [|[line|] rest IH]; intros w.
  - simpl. auto.
  - rewrite prompt_loop_Line. cbv zeta.
    destruct (is_empty (strip line)); [apply (IH (set_stdin rest w))|].
    destruct (py_int (strip line)) as [n|]; [|apply (IH (set_stdin rest w))].
    destruct (_ && _) eqn:E; [|apply (IH (set_stdin rest w))].
    unfold mbind, M_bind. rewrite update_config_returns. left.
    apply andb_true_iff in E as [Hlo Hhi].
    apply Z.leb_le in Hlo. apply Z.ltb_lt in Hhi.
    apply nth_In. lia.
  - simpl. auto.
Qed.

Lemma match_rules_without_empty d items :
  match_rules d (List.filter has_keywords items) = match_rules d items.
Proof.
  induction items as [|[c kws] items IH]; simpl; [reflexivity|].
  destruct kws as [|k kws]; simpl; [exact IH|]. now rewrite IH.
Qed.

End ClassifierOutcome.

(** X5. A call of the classifier either returns a category, which is
    "Shopping", a category of the rule set, one of the eight offered at the
    prompt or the default category ("Other" when none is configured), or
    raises EOFError because the terminal input ended at the prompt; in that
    case nothing was learned or written: only the input is used up. *)
Theorem classifier_outcome (description : string) (amount : float) (w : World) :
  match categorize_transaction_with_amount description amount w with
  | (Ok c, _) =>
      c = "Shopping"
      \/ In c (map fst (categories (categorization_config w)))
      \/ In c AVAILABLE_CATEGORIES
      \/ c = default "Other" (default_category (categorization_config w))
  | (Raise e, w') =>
      e = EOFError
      /\ w' = mkWorld (categorization_config w) [] (fs_outcomes w) (config_file w)
  end.
Proof.
  unfold categorize_transaction_with_amount.
  destruct (costco_override _ _); [left; reflexivity|].
  unfold mbind, M_bind, get_config.
  destruct (match_rules _ _) as [c|] eqn:E.
  - right. left. eapply match_rules_key. exact E.
  - unfold prompt_user_for_category.
    pose proof (prompt_loop_outcome description (stdin w) w) as H.
    destruct (prompt_loop description (stdin w) w) as [[c|e] w']; tauto.
Qed.

(** X8. A category with an empty keyword list takes no part in matching:
    taking all such categories out of the rule set changes the result of
    rule matching for no description. *)
Theorem empty_keyword_lists_never_match (description : string) (config : RuleSet) :
  match_rules (lower description) (List.filter has_keywords (categories config))
  = match_rules (lower description) (categories config).
Proof. apply match_rules_without_empty. Qed.

(** X10. When an unrecognized merchant is met and every line still to come
    at the terminal is rejected, the classifier does not fall back on the
    default category: it raises EOFError, with the rule set and the rule
    store file untouched. *)
Theorem end_of_input_at_prompt_raises
    (merchant_name : string) (amount : float) (w : World) (lines : list string) :
  ~ override_applies merchant_name amount ->
  no_keyword_matches (categories (categorization_config w)) merchant_name ->
  Forall invalid_line lines ->
  stdin w = map Line lines ->
  categorize_transaction_with_amount merchant_name amount w
  = (Raise EOFError,
     mkWorld (categorization_config w) [] (fs_outcomes w) (config_file w)).
Proof.
  intros Ho Hnone Hinv Hin.
  apply not_override in Ho. apply match_rules_None in Hnone.
  unfold categorize_transaction_with_amount. rewrite Ho.
  unfold mbind, M_bind, get_config. rewrite Hnone.
  unfold prompt_user_for_category. rewrite Hin.
  rewrite <- (app_nil_r (map Line lines)).
  rewrite prompt_loop_skip_invalid by assumption. reflexivity.
Qed.

Section DuplicateFree.

Implicit Types (items : list (string * list string)) (config : RuleSet) (w : World).

Lemma dict_set_keys_present {V} (k : string) (v v0 : V) (d : list (string * V)) :
  dict_get k d = Some v0 -> map fst (dict_set k v d) = map fst d.
Proof.
  induction d as [|[k' v'] d IH]; simpl; [discriminate|].
  destruct (String.eqb k k'); [reflexivity|].
  intros H. simpl. now rewrite IH.
Qed.

Lemma dict_set_Forall {V} (Q : V -> Prop) (k : string) (v : V) (d : list (string * V)) :
  Q v -> Forall (fun item => Q (snd item)) d ->
  Forall (fun item => Q (snd item)) (dict_set k v d).
Proof.
  intros Hv Hd. induction Hd as [|[k' v'] d Hx Hd IH]; simpl.
  - constructor; [exact Hv | constructor].
  - destruct (String.eqb k k'); constructor; auto.
Qed.

Lemma NoDup_snoc (l : list string) (x : string) :
  NoDup l -> ~ In x l -> NoDup (l ++ [x])%list.
Proof.
  intros Hl Hx. apply NoDup_app. split; [exact Hl|]. split.
  - intros y Hy Hy'. apply list_elem_of_In in Hy, Hy'.
    destruct Hy' as [<-|[]]. contradiction.
  - apply NoDup_singleton.
Qed.

Lemma add_keyword_duplicate_free category keyword config :
  duplicate_free config -> duplicate_free (add_keyword category keyword config).
Proof.
  intros [Hkeys Hlists]. unfold duplicate_free, add_keyword. simpl.
  set (cats1 := if dict_mem category (categories config) then categories config
                else dict_set category [] (categories config)).
  assert (NoDup (map fst cats1) /\ Forall (fun item => NoDup (snd item)) cats1
          /\ exists kws, dict_get category cats1 = Some kws) as (H1 & H2 & kws & Hget).
  { subst cats1. destruct (dict_mem category (categories config)) eqn:Hm.
    - split; [exact Hkeys|]. split; [exact Hlists|]. now apply dict_mem_get.
    - rewrite (dict_set_absent _ _ _ Hm). split; [|split].
      + rewrite map_app. simpl. apply NoDup_snoc; [exact Hkeys|].
        intros Hin. apply dict_mem_keys in Hin. congruence.
      + apply Forall_app. split; [exact Hlists|].
        constructor; [apply NoDup_nil_2 | constructor].
      + exists []. rewrite <- (dict_set_absent _ _ _ Hm). apply dict_get_set. }
  rewrite Hget. simpl.
  destruct (in_list keyword kws) eqn:Hin; [now split|].
  split.
  - now rewrite (dict_set_keys_present _ _ _ _ Hget).
  - apply (dict_set_Forall (fun l => NoDup l)); [|exact H2].
    apply NoDup_snoc.
    + apply dict_get_In in Hget. apply list_elem_of_In in Hget.
      rewrite Forall_forall in H2. exact (H2 _ Hget).
    + intros Hk. apply in_list_iff in Hk. congruence.
Qed.

Lemma prompt_loop_duplicate_free description events w :
  duplicate_free (categorization_config w) ->
  duplicate_free (categorization_config (snd (prompt_loop description events w))).
Proof.
  revert w. induction events as [|[line|] rest IH]; intros w Hw.
  - exact Hw.
  - rewrite prompt_loop_Line. cbv zeta.
    destruct (is_empty (strip line)); [now apply (IH (set_stdin rest w))|].
    destruct (py_int (strip line)) as [n|]; [|now apply (IH (set_stdin rest w))].
    destruct (_ && _); [|now apply (IH (set_stdin rest w))].
    unfold mbind, M_bind. rewrite update_config_returns. simpl.
    now apply add_keyword_duplicate_free.
  - exact Hw.
Qed.

End DuplicateFree.

(** X9. The classifier keeps the rule set a dict of ordered sets: when no
    category name and no keyword of a list is repeated before a call, none
    is repeated after it, whatever the call learned. *)
Theorem classifier_keeps_rule_set_duplicate_free
    (description : string) (amount : float) (w : World) :
  duplicate_free (categorization_config w) ->
  duplicate_free (categorization_config
                    (snd (categorize_transaction_with_amount description amount w))).
Proof.
  intros Hw. unfold categorize_transaction_with_amount.
  destruct (costco_override _ _); [exact Hw|].
  unfold mbind, M_bind, get_config.
  destruct (match_rules _ _); [exact Hw|].
  now apply prompt_loop_duplicate_free.
Qed.

(** X11. The rule store file is rewritten in full at every update, so a
    keyword whose write failed is on file after the next update that is
    written: the file then holds the whole in-memory rule set, the earlier
    keyword included. *)
Theorem failed_write_is_made_up_by_next_update
    (c1 k1 c2 k2 : string) (w : World)
    (residue : option RuleSet) (rest : list write_outcome) :
  fs_outcomes w = WriteFails residue :: rest ->
  hd WriteOk rest = WriteOk ->
  let w1 := snd (update_config_with_new_keyword c1 k1 w) in
  let w2 := snd (update_config_with_new_keyword c2 k2 w1) in
  config_file w1 = residue
  /\ config_file w2 = Some (categorization_config w2)
  /\ exists l, dict_get c1 (categories (categorization_config w2)) = Some l
               /\ In k1 l.
Proof.
  intros Hfs Hrest. cbv zeta. rewrite !update_config_returns. cbn [snd].
  unfold after_update. cbn [config_file categorization_config fs_outcomes stdin].
  rewrite Hfs. cbn [tl].
  split; [reflexivity|]. split.
  - destruct rest as [|[|r] rest']; simpl in *; [reflexivity | reflexivity | discriminate].
  - destruct (add_keyword_extends c2 k2 (add_keyword c1 k1 (categorization_config w)))
      as [_ Hg].
    destruct (grows_items_get _ _ _ _ Hg (add_keyword_get c1 k1 (categorization_config w)))
      as [more Hget].
    eexists. split; [exact Hget|].
    apply in_or_app. left. apply learned_list_In.
Qed.

(** ** More on the normalizer and the key term *)

Section NormalizerFacts.

#[local] Arguments String.append : simpl nomatch.

Lemma title_from_empty (b : bool) (s : string) : title_from b s = "" -> s = "".
Proof. destruct s; simpl; [reflexivity | discriminate]. Qed.

Lemma take_succ_empty (n : nat) (s : string) : take (S n) s = "" -> s = "".
Proof. destruct s; simpl; [reflexivity | discriminate]. Qed.

Lemma append_empty (a b : string) : a ++ b = "" -> a = "".
Proof. destruct a; simpl; [reflexivity | discriminate]. Qed.

Lemma split_from_nonempty (cur s : string) :
  Forall (fun w => w <> "") (split_from cur s).
Proof.
  revert cur. induction s as [|c s IH]; intros cur; simpl.
  - destruct cur; simpl; [constructor|]. constructor; [discriminate | constructor].
  - destruct (is_space c); [|apply IH].
    destruct cur; simpl; [apply IH|]. constructor; [discriminate | apply IH].
Qed.

Lemma clean_words_loop_nonempty (words clean_words : list string) :
  Forall (fun w => w <> "") clean_words ->
  Forall (fun w => w <> "") (clean_words_loop words clean_words).
Proof.
  revert clean_words.
  induction words as [|word words IH]; intros clean_words Hc;
    cbn [clean_words_loop]; [assumption|].
  destruct (any_char is_digit word && any_char is_separator word); [now apply IH|].
  destruct ((len word =? 2)%nat && isupper word); [now apply IH|].
  destruct (in_list (lower word) location_words); [now apply IH|].
  assert (Forall (fun w => w <> "")
            (if (1 <? len word)%nat then (clean_words ++ [title word])%list
             else clean_words)) as Hc'.
  { destruct (1 <? len word)%nat eqn:E; [|assumption].
    apply Forall_app. split; [assumption|].
    constructor; [|constructor]. intros Ht. apply title_from_empty in Ht.
    subst word. discriminate. }
  destruct (2 <=? _)%nat; [assumption | now apply IH].
Qed.

Lemma join_empty (sep : string) (l : list string) :
  Forall (fun w => w <> "") l -> join sep l = "" -> l = [].
Proof.
  intros Hl Hj. destruct l as [|x [|y l]]; [reflexivity | |];
    inversion Hl as [|? ? Hx _]; subst; simpl in Hj.
  - contradiction.
  - apply append_empty in Hj. contradiction.
Qed.

Lemma unknown_merchant_name_empty (raw_description : string) :
  unknown_merchant_name raw_description = "" -> raw_description = "".
Proof.
  unfold unknown_merchant_name.
  set (words := split _).
  set (clean_words := clean_words_loop words []).
  assert (Forall (fun w => w <> "") clean_words) as Hc
      by (apply clean_words_loop_nonempty; constructor).
  assert (Forall (fun w => w <> "") words) as Hw by apply split_from_nonempty.
  destruct clean_words as [|c0 clean_words']; cbn [length Nat.ltb Nat.leb].
  - destruct words as [|w0 words']; intros H.
    + apply take_succ_empty, title_from_empty in H. exact H.
    + apply take_succ_empty, title_from_empty in H.
      inversion Hw; subst. contradiction.
  - intros H. apply join_empty in H; [discriminate|].
    apply Forall_take. exact Hc.
Qed.

Lemma lower_join_blank (l : list string) :
  Forall (fun x => lower x = x) l -> lower (join " " l) = join " " l.
Proof.
  induction 1 as [|x l Hx Hl IH]; [reflexivity|].
  destruct l as [|y l]; [exact Hx|].
  change (join " " (x :: y :: l)) with (x ++ " " ++ join " " (y :: l)).
  rewrite !lower_app, Hx, IH. reflexivity.
Qed.

Lemma meaningful_loop_lower (words acc : list string) :
  Forall (fun x => lower x = x) acc ->
  Forall (fun x => lower x = x) (meaningful_loop words acc).
Proof.
  revert acc. induction words as [|word words IH]; intros acc Hacc;
    cbn [meaningful_loop]; [assumption|].
  destruct (_ && _); [|now apply IH].
  assert (Forall (fun x => lower x = x) (acc ++ [lower word])%list) as H.
  { apply Forall_app. split; [assumption|].
    constructor; [apply lower_idem | constructor]. }
  destruct (2 <=? _)%nat; [assumption | now apply IH].
Qed.

End NormalizerFacts.

(** X2. The normalizer returns the empty string for the empty string only:
    every non-empty raw description, blank ones included, gets a non-empty
    merchant name. *)
Theorem normalizer_result_is_empty_only_for_empty_input (raw_description : string) :
  extract_merchant_name raw_description = "" <-> raw_description = "".
Proof.
  split; [|intros ->; reflexivity].
  unfold extract_merchant_name. cbv zeta.
  repeat match goal with
         | |- (if ?b then String _ _ else _) = "" -> _ =>
             destruct b; [discriminate|]
         end.
  destruct (py_in "spokane" _); [|apply unknown_merchant_name_empty].
  repeat match goal with
         | |- (if ?b then String _ _ else _) = "" -> _ =>
             destruct b; [discriminate|]
         end.
  discriminate.
Qed.

(** X4. The key term learned from a description is in lower case, whatever
    the case of the description: lower-casing it again changes nothing. *)
Theorem key_term_is_lower_case (description : string) :
  lower (extract_key_term_for_config description)
  = extract_key_term_for_config description.
Proof.
  unfold extract_key_term_for_config. cbv zeta.
  set (words := split _).
  assert (Forall (fun x => lower x = x) (meaningful_loop (firstn 3 words) [])) as Hm
      by (apply meaningful_loop_lower; constructor).
  destruct (0 <? _)%nat.
  - now apply lower_join_blank.
  - destruct words as [|w0 words'].
    + now rewrite lower_take, lower_idem.
    + apply lower_idem.
Qed.

(** ** More on the adapters *)

Section ProcessFacts.

Variable to_datetime : Series -> result Series.
Variable str_float : float -> string.
Variable str_time : Z -> string.
Variable float_of_str : string -> option float.

Lemma dict_get_set_other {V} (k k' : string) (v : V) (d : list (string * V)) :
  k' <> k -> dict_get k' (dict_set k v d) = dict_get k' d.
Proof.
  intros Hne. induction d as [|[k0 v0] d IH]; simpl.
  - apply String.eqb_neq in Hne. now rewrite Hne.
  - destruct (String.eqb k k0) eqn:E; simpl; [|now rewrite IH].
    apply String.eqb_eq in E as <-.
    apply String.eqb_neq in Hne. now rewrite Hne.
Qed.

Lemma process_rows_aborts (self : CSVProcessor) (before after : list row) (r : row) (e : exn) :
  _should_skip_transaction str_float str_time self r = false ->
  _extract_transaction_data self r = Raise e ->
  exists e', process_rows str_float str_time self (before ++ r :: after)%list = Raise e'.
Proof.
  intros Hskip Hex. induction before as [|r0 before [e' IH]]; simpl.
  - rewrite Hskip, Hex. now exists e.
  - rewrite IH. destruct (_should_skip_transaction _ _ _ r0); [now exists e'|].
    unfold mbind, result_bind.
    destruct (_extract_transaction_data self r0) as [t|e0]; eauto.
Qed.

End ProcessFacts.

(** X12. The loop of [process] is a filter followed by a map: the
    transactions returned are those extracted from the rows that are not
    skipped, in the order of the rows, without the rows the extraction
    returns nothing for; an exception is the one of the first row kept whose
    extraction raises. *)
Theorem process_loop_is_filter_then_extract
    (str_float : float -> string) (str_time : Z -> string)
    (self : CSVProcessor) (rows : list row) :
  process_rows str_float str_time self rows
  = match mapM (_extract_transaction_data self)
               (List.filter
                  (fun r => negb (_should_skip_transaction str_float str_time self r))
                  rows) with
    | Ok extracted => Ok (omap (M := list) id extracted)
    | Raise e => Raise e
    end.
Proof.
  induction rows as [|r rows IH]; [reflexivity|].
  cbn [process_rows List.filter].
  destruct (_should_skip_transaction str_float str_time self r); cbn [negb]; [exact IH|].
  cbn [mapM]. rewrite IH. unfold mbind, result_bind, mret, result_ret.
  destruct (_extract_transaction_data self r) as [[t|]|e]; [| |reflexivity];
    destruct (mapM _ _); reflexivity.
Qed.

(** X13. One bad row loses the file: when the extraction raises on a row
    that is not skipped, [process_rows] raises whatever rows come before and
    after it; the transactions of the good rows are not returned. *)
Theorem one_bad_row_aborts_the_file
    (str_float : float -> string) (str_time : Z -> string)
    (self : CSVProcessor) (before after : list row) (r : row) (e : exn) :
  _should_skip_transaction str_float str_time self r = false ->
  _extract_transaction_data self r = Raise e ->
  exists e', process_rows str_float str_time self (before ++ r :: after)%list = Raise e'.
Proof. apply process_rows_aborts. Qed.

(** X14. The Costco adapter skips no row and tags every description: when
    its loop returns, it returns one transaction per row, each with a
    description that is a string starting with "COSTCO-". *)
Theorem costco_adapter_tags_every_row
    (str_float : float -> string) (str_time : Z -> string)
    (float_of_str : string -> option float)
    (rows : list row) (out : list transaction) :
  process_rows str_float str_time
    (CostcoCSVProcessor str_float str_time float_of_str) rows = Ok out ->
  length out = length rows
  /\ Forall (fun t => exists s, tx_description t = CStr ("COSTCO-" ++ s)) out.
Proof.
  revert out. induction rows as [|r rows IH]; intros out; cbn [process_rows].
  - intros [= <-]. split; [reflexivity | constructor].
  - change (_should_skip_transaction str_float str_time
              (CostcoCSVProcessor str_float str_time float_of_str) r) with false.
    cbv iota. cbn [_extract_transaction_data CostcoCSVProcessor].
    unfold costco_extract_transaction_data, mbind, result_bind.
    destruct (getitem r _) as [d|]; [|discriminate].
    destruct (getitem r _) as [descr|]; [|discriminate].
    destruct (getitem r _) as [a|]; [|discriminate].
    destruct (py_float float_of_str a) as [f|]; [|discriminate].
    cbn [mret result_ret].
    destruct (process_rows _ _ _ rows) as [processed|]; [|discriminate].
    intros [= <-]. destruct (IH processed eq_refl) as [Hlen Hall].
    split; [simpl; now rewrite Hlen|].
    constructor; [|exact Hall]. now exists (py_str str_float str_time descr).
Qed.

(** X15. The Citi consolidation writes the Amount column and nothing else:
    every other column of the frame is returned as it was. *)
Theorem citi_consolidation_keeps_other_columns
    (float_of_str : string -> option float) (df df' : DataFrame) (name : string) :
  _consolidate_columns (CitiCSVProcessor float_of_str) df = Ok df' ->
  name <> "Amount" ->
  dict_get name df' = dict_get name df.
Proof.
  cbn [_consolidate_columns CitiCSVProcessor].
  unfold citi_consolidate_columns, mbind, result_bind.
  destruct (getitem df "Debit"); [|discriminate].
  destruct (astype_float _ _); [|discriminate].
  destruct (getitem df "Credit"); [|discriminate].
  destruct (astype_float _ _); [|discriminate].
  intros [= <-] Hne. now apply dict_get_set_other.
Qed.

(** X16. A Citi file without a Debit column cannot be processed: once the
    date column, if any, is converted, [process] raises KeyError for
    "Debit" before it reads a row. *)
Theorem citi_file_without_debit_raises
    (to_datetime : Series -> result Series)
    (str_float : float -> string) (str_time : Z -> string)
    (float_of_str : string -> option float) (df : DataFrame) :
  dict_get "Debit" df = None ->
  (forall s, dict_get "Date" df = Some s -> exists s', to_datetime s = Ok s') ->
  process to_datetime str_float str_time (CitiCSVProcessor float_of_str) df
  = Raise (KeyError "Debit").
Proof.
  intros Hdebit Hdate. unfold process, _prepare_dataframe.
  change (date_column_name (CitiCSVProcessor float_of_str)) with (Some "Date").
  change (default "" (Some "Date")) with "Date".
  change (truthy (Some "Date")) with true.
  change (_consolidate_columns (CitiCSVProcessor float_of_str))
    with (citi_consolidate_columns float_of_str).
  cbn [andb].
  destruct (dict_mem "Date" df) eqn:Hm.
  - apply dict_mem_get in Hm as [s Hs]. destruct (Hdate s Hs) as [s' Hs'].
    unfold citi_consolidate_columns, getitem, mbind, result_bind, mret, result_ret.
    rewrite Hs, Hs'.
    rewrite dict_get_set_other by discriminate. now rewrite Hdebit.
  - unfold citi_consolidate_columns, getitem, mbind, result_bind, mret, result_ret.
    now rewrite Hdebit.
Qed.

(** ** The orchestrator *)

Section OrchestratorFacts.

Variable to_datetime : Series -> result Series.
Variable str_float : float -> string.
Variable str_time : Z -> string.
Variable set_iter : list string -> list string.
Variable argsort : Series -> result (list nat).
Variable dt_strftime : Series -> result Series.

Implicit Types (mapping : list (string * CSVProcessor)) (folder : Folder)
         (self : Analyzer) (w : World).

Lemma apply_extract_merchant_name_Returns (s : Series) (names : list string) :
  apply_extract_merchant_name s = Returns names ->
  exists raws, s = map CStr raws /\ names = map extract_merchant_name raws.
Proof.
  revert names. induction s as [|[raw|f|t] s IH]; intros names; simpl;
    try discriminate.
  - intros [= <-]. now exists [].
  - destruct (apply_extract_merchant_name s) as [names'|]; [|discriminate].
    intros [= <-]. destruct (IH names' eq_refl) as (raws & -> & ->).
    now exists (raw :: raws).
Qed.

Lemma apply_extract_merchant_name_Raises (s : Series) (c : cell) :
  In c s -> (forall raw, c <> CStr raw) ->
  apply_extract_merchant_name s = Raises AttributeError.
Proof.
  intros Hin Hc. induction s as [|c0 s IH]; [destruct Hin|].
  destruct Hin as [->|Hin].
  - destruct c as [raw|f|t]; simpl; try reflexivity. now destruct (Hc raw).
  - destruct c0 as [raw|f|t]; simpl; try reflexivity. now rewrite (IH Hin).
Qed.

Lemma reorder_nil {A} (order : list nat) : reorder order (@nil A) = [].
Proof.
  unfold reorder. induction order as [|i order IH]; [reflexivity|].
  simpl. destruct i; exact IH.
Qed.

Lemma categorize_rows_later (descriptions : list string) (amounts : list float) w :
  later w (snd (categorize_rows descriptions amounts w)).
Proof.
  revert amounts w. induction descriptions as [|d ds IH]; intros [|a amounts] w;
    try apply later_now.
  cbn [categorize_rows]. unfold mbind, M_bind.
  apply (later_call w d a).
  destruct (categorize_transaction_with_amount d a w) as [[c|e] w1]; cbn [snd];
    [|apply later_now].
  specialize (IH amounts w1).
  destruct (categorize_rows ds amounts w1) as [[cs|e] w2]; exact IH.
Qed.

Lemma categorize_rows_length (descriptions : list string) (amounts : list float) w
      (categories : list string) (w' : World) :
  categorize_rows descriptions amounts w = (Ok categories, w') ->
  length categories = Nat.min (length descriptions) (length amounts).
Proof.
  revert amounts w categories w'. induction descriptions as [|d ds IH];
    intros [|a amounts] w categories w'; cbn [categorize_rows];
    try (intros [= <- _]; reflexivity).
  unfold mbind, M_bind.
  destruct (categorize_transaction_with_amount d a w) as [[c|e] w1]; [|discriminate].
  destruct (categorize_rows ds amounts w1) as [[cs|e] w2] eqn:E; [|discriminate].
  intros [= <- _]. simpl. f_equal. eapply IH. exact E.
Qed.

Lemma collect_files_skips_failing mapping folder
      (before after : list string) (csv_file : string) (processor : CSVProcessor)
      (e : exn) (all_data : list transaction) :
  dict_get csv_file mapping = Some processor ->
  process_file to_datetime str_float str_time processor folder csv_file = Raise e ->
  collect_files to_datetime str_float str_time mapping folder
                (before ++ csv_file :: after)%list all_data
  = collect_files to_datetime str_float str_time mapping folder
                  (before ++ after)%list all_data.
Proof.
  intros Hget Hfail. revert all_data.
  induction before as [|f before IH]; intros all_data; cbn [app collect_files].
  - unfold getitem. rewrite Hget. unfold mbind, result_bind. now rewrite Hfail.
  - unfold mbind, result_bind. destruct (getitem mapping f) as [p|]; [|reflexivity].
    destruct (process_file _ _ _ p folder f); apply IH.
Qed.

Lemma collect_files_nothing mapping folder (files : list string)
      (all_data : list transaction) :
  Forall (fun csv_file =>
            exists processor,
              dict_get csv_file mapping = Some processor
              /\ ((exists e, process_file to_datetime str_float str_time
                                          processor folder csv_file = Raise e)
                  \/ process_file to_datetime str_float str_time
                                  processor folder csv_file = Ok [])) files ->
  collect_files to_datetime str_float str_time mapping folder files all_data
  = Ok all_data.
Proof.
  induction 1 as [|f files (p & Hget & Hp) _ IH]; [reflexivity|].
  cbn [collect_files]. unfold getitem. rewrite Hget. unfold mbind, result_bind.
  destruct Hp as [[e ->] | ->]; [exact IH|].
  now rewrite app_nil_r.
Qed.

(** X17. A file that cannot be read or processed is passed over: the
    transactions collected are those collected from the other files. *)
Theorem failing_file_is_passed_over mapping folder
      (before after : list string) (csv_file : string) (processor : CSVProcessor)
      (e : exn) :
  dict_get csv_file mapping = Some processor ->
  process_file to_datetime str_float str_time processor folder csv_file = Raise e ->
  collect_files to_datetime str_float str_time mapping folder
                (before ++ csv_file :: after)%list []
  = collect_files to_datetime str_float str_time mapping folder
                  (before ++ after)%list [].
Proof. intros. eapply collect_files_skips_failing; eassumption. Qed.

(** X18. A run with nothing to load raises ValueError and leaves the
    analyzer as it was, without a prompt: when the folder does not exist,
    when it holds no registered file, and when every registered file in it
    fails or yields no transaction. *)
Theorem no_data_raises_value_error mapping folder self :
  Forall (fun csv_file =>
            exists processor,
              dict_get csv_file mapping = Some processor
              /\ ((exists e, process_file to_datetime str_float str_time
                                          processor folder csv_file = Raise e)
                  \/ process_file to_datetime str_float str_time
                                  processor folder csv_file = Ok []))
         (csv_files set_iter mapping folder) ->
  load_and_process_data to_datetime str_float str_time set_iter argsort dt_strftime
                        mapping folder self
  = (Raises (Exn ValueError), self).
Proof.
  intros H. unfold load_and_process_data.
  destruct (negb (folder_exists folder)); [reflexivity|]. cbv zeta.
  destruct (is_empty_list (csv_files set_iter mapping folder)); [reflexivity|].
  now rewrite (collect_files_nothing _ _ _ [] H).
Qed.

(** X19. A description that is not a string stops the run: when a collected
    transaction whose description is missing is among the sorted records,
    the run raises AttributeError before any transaction is classified; the
    classifier's state is untouched. *)
Theorem missing_description_raises_attribute_error mapping folder self
      (all_data : list transaction) (order : list nat) (t : transaction) :
  folder_exists folder = true ->
  csv_files set_iter mapping folder <> [] ->
  collect_files to_datetime str_float str_time mapping folder
                (csv_files set_iter mapping folder) [] = Ok all_data ->
  argsort (map tx_date all_data) = Ok order ->
  In t (reorder order all_data) ->
  (forall raw, tx_description t <> CStr raw) ->
  let run := load_and_process_data to_datetime str_float str_time set_iter argsort
                                   dt_strftime mapping folder self in
  fst run = Raises AttributeError /\ world (snd run) = world self.
Proof.
  intros Hex Hfiles Hcollect Hsort Hin Hdesc. cbv zeta.
  unfold load_and_process_data. rewrite Hex. cbn [negb]. cbv zeta.
  destruct (csv_files set_iter mapping folder) as [|f files] eqn:Ef; [congruence|].
  cbn [is_empty_list]. rewrite Hcollect.
  destruct all_data as [|t0 all_data'].
  { rewrite reorder_nil in Hin. destruct Hin. }
  cbn [is_empty_list]. rewrite Hsort.
  rewrite (apply_extract_merchant_name_Raises _ (tx_description t)); [now split| |exact Hdesc].
  apply in_map. exact Hin.
Qed.

(** X20. What a successful run returns: the frame is also stored in
    [combined_data]; its rows are the collected transactions in the order
    the sort gave; [raw_description] holds their descriptions, all strings,
    [description] the normalizer's name for each, [category] one category
    per row, [date] and [amount] the transactions' own; and the classifier's
    state is one reached by calls of the classifier only. *)
Theorem successful_run_shape mapping folder self (df : DataFrame) (self' : Analyzer) :
  load_and_process_data to_datetime str_float str_time set_iter argsort dt_strftime
                        mapping folder self
  = (Returns df, self') ->
  combined_data self' = Some df
  /\ later (world self) (world self')
  /\ exists (all_data : list transaction) (order : list nat)
            (raws category : list string),
       collect_files to_datetime str_float str_time mapping folder
                     (csv_files set_iter mapping folder) [] = Ok all_data
       /\ argsort (map tx_date all_data) = Ok order
       /\ map tx_description (reorder order all_data) = map CStr raws
       /\ dict_get "raw_description" df = Some (map CStr raws)
       /\ dict_get "description" df = Some (map CStr (map extract_merchant_name raws))
       /\ dict_get "category" df = Some (map CStr category)
       /\ length category = length raws
       /\ dict_get "date" df = Some (map tx_date (reorder order all_data))
       /\ dict_get "amount" df
          = Some (map (fun t => CFloat (tx_amount t)) (reorder order all_data)).
Proof.
  unfold load_and_process_data.
  destruct (negb (folder_exists folder)); [discriminate|]. cbv zeta.
  destruct (is_empty_list _); [discriminate|].
  destruct (collect_files _ _ _ _ _ _ _) as [all_data|] eqn:Hcollect; [|discriminate].
  destruct (is_empty_list all_data); [discriminate|].
  destruct (argsort _) as [order|] eqn:Hsort; [|discriminate].
  destruct (apply_extract_merchant_name _) as [description|] eqn:Ed; [|discriminate].
  destruct (apply_extract_merchant_name_Returns _ _ Ed) as (raws & Hraws & ->).
  pose proof (categorize_rows_later (map extract_merchant_name raws)
                (map tx_amount (reorder order all_data)) (world self)) as Hlater.
  destruct (categorize_rows _ _ _) as [[category|] w] eqn:Ec; [|discriminate].
  destruct (dt_strftime _) as [year_month|]; [|discriminate].
  intros [= <- <-]. split; [reflexivity|]. split; [exact Hlater|].
  exists all_data, order, raws, category.
  split; [reflexivity|]. split; [exact Hsort|]. split; [exact Hraws|].
  rewrite Hraws.
  split; [reflexivity|]. split; [reflexivity|]. split; [reflexivity|].
  split; [|split; reflexivity].
  apply categorize_rows_length in Ec. rewrite Ec, !length_map.
  apply (f_equal (@length _)) in Hraws. rewrite !length_map in Hraws. lia.
Qed.

End OrchestratorFacts.

(** X21. A pass over merchants the rules recognize, or the override
    applies to, needs no terminal: every row gets a category and the world,
    pending terminal input included, is as before. *)
Theorem recognized_rows_need_no_terminal
    (descriptions : list string) (amounts : list float) (w : World) :
  Forall2 (fun description amount =>
             costco_override (lower description) amount = true
             \/ exists c, match_rules (lower description)
                                      (categories (categorization_config w)) = Some c)
          descriptions amounts ->
  exists categories,
    categorize_rows descriptions amounts w = (Ok categories, w)
    /\ length categories = length descriptions.
Proof.
  intros H. induction H as [|d a ds amounts Hd _ [cs [IH Hlen]]].
  - now exists [].
  - assert (exists c, categorize_transaction_with_amount d a w = (Ok c, w)) as [c Hc].
    { unfold categorize_transaction_with_amount.
      destruct (costco_override (lower d) a) eqn:Ho; [now exists "Shopping"|].
      destruct Hd as [Hd|[c Hd]]; [discriminate|].
      exists c. unfold mbind, M_bind, get_config. now rewrite Hd. }
    exists (c :: cs). cbn [categorize_rows]. unfold mbind, M_bind.
    rewrite Hc, IH. split; [reflexivity | simpl; now rewrite Hlen].
Qed.

(** ** Instances of the further properties *)

Lemma normalizer_two_words_when_a_token_is_left_witness :
  (word_count (extract_merchant_name "SQ *JOE'S diner 206-555-0100 WA") <= 2)%nat.
Proof.
  apply normalizer_two_words_when_a_token_is_left.
  vm_compute. discriminate.
Defined.

Lemma key_term_occurs_witness :
  ci_contains "Joe's Inc" (extract_key_term_for_config "Joe's Inc").
Proof.
  apply key_term_occurs. vm_compute. lia.
Defined.

Lemma recognized_merchant_is_never_prompted_again_witness :
  let w := fresh_world [Line "3"] in
  let w' := snd (categorize_transaction_with_amount "Corner Bakery" (PyFloat.of_Z 12) w) in
  exists c', categorize_transaction_with_amount "Amazon Prime" (PyFloat.of_Z 20) w'
             = (Ok c', w').
Proof.
  intros w w'.
  apply (recognized_merchant_is_never_prompted_again "Amazon Prime" "Shopping" w w').
  - reflexivity.
  - apply (later_call w "Corner Bakery" (PyFloat.of_Z 12)). apply later_now.
Defined.

Lemma classifier_keeps_rule_set_duplicate_free_witness :
  duplicate_free
    (categorization_config
       (snd (categorize_transaction_with_amount "Corner Bakery" (PyFloat.of_Z 12)
               (fresh_world [Line "3"])))).
Proof.
  apply classifier_keeps_rule_set_duplicate_free.
  split.
  - apply (bool_decide_unpack _). vm_compute. exact I.
  - apply (bool_decide_unpack _). vm_compute. exact I.
Defined.

Lemma end_of_input_at_prompt_raises_witness :
  categorize_transaction_with_amount "Corner Bakery" (PyFloat.of_Z 12)
    (fresh_world [Line ""; Line "x"])
  = (Raise EOFError, fresh_world []).
Proof.
  apply (end_of_input_at_prompt_raises "Corner Bakery" (PyFloat.of_Z 12)
           (fresh_world [Line ""; Line "x"]) [""; "x"]).
  - intros H. apply costco_override_iff in H. vm_compute in H. discriminate.
  - apply match_rules_None. reflexivity.
  - constructor; [left; reflexivity|].
    constructor; [right; left; reflexivity | constructor].
  - reflexivity.
Defined.

Lemma failed_write_is_made_up_by_next_update_witness :
  let w := mkWorld (load_categorization_config FileNotFound) []
                   [WriteFails None; WriteOk] None in
  let w1 := snd (update_config_with_new_keyword "Food" "bakery" w) in
  let w2 := snd (update_config_with_new_keyword "Travel" "hotel" w1) in
  config_file w1 = None
  /\ config_file w2 = Some (categorization_config w2)
  /\ exists l, dict_get "Food" (categories (categorization_config w2)) = Some l
               /\ In "bakery" l.
Proof.
  intros w.
  apply (failed_write_is_made_up_by_next_update "Food" "bakery" "Travel" "hotel" w
           None [WriteOk]); reflexivity.
Defined.

Lemma one_bad_row_aborts_the_file_witness :
  let self := SmartlyCSVProcessor plain_float_of_str in
  let good := [("Date", CStr "2025-03-02"); ("Name", CStr "Corner Bakery");
               ("Amount", CFloat (PyFloat.of_Z (-12)))] in
  let bad := [("Date", CStr "2025-03-03"); ("Name", CStr "Hardware Store")] in
  exists e', process_rows plain_str_float plain_str_time self [good; bad] = Raise e'.
Proof.
  intros self good bad.
  apply (one_bad_row_aborts_the_file plain_str_float plain_str_time self
           [good] [] bad (KeyError "Amount")); reflexivity.
Defined.

Lemma costco_adapter_tags_every_row_witness :
  let r := [("date", CStr "2025-03-01"); ("description", CStr "KS WATER 40PK");
            ("amount", CFloat (PyFloat.of_Z 5))] in
  let out := [mkTransaction (CStr "2025-03-01") (CStr "COSTCO-KS WATER 40PK")
                            (PyFloat.of_Z 5)] in
  length out = length [r]
  /\ Forall (fun t => exists s, tx_description t = CStr ("COSTCO-" ++ s)) out.
Proof.
  intros r out.
  apply (costco_adapter_tags_every_row plain_str_float plain_str_time
           plain_float_of_str [r] out).
  reflexivity.
Defined.

Lemma citi_consolidation_keeps_other_columns_witness :
  dict_get "Debit"
    (citi_example_frame ++ [("Amount", [CFloat (PyFloat.of_scaled 65 (-1))])])%list
  = dict_get "Debit" citi_example_frame.
Proof.
  apply (citi_consolidation_keeps_other_columns plain_float_of_str citi_example_frame).
  - reflexivity.
  - discriminate.
Defined.

Lemma citi_file_without_debit_raises_witness :
  process plain_to_datetime plain_str_float plain_str_time
          (CitiCSVProcessor plain_float_of_str)
          [("Date", [CStr "2025-03-01"]);
           ("Description", [CStr "TST* Dough Zone 2xxx"]);
           ("Credit", [CFloat S754_nan])]
  = Raise (KeyError "Debit").
Proof.
  apply citi_file_without_debit_raises.
  - reflexivity.
  - intros s _. now exists s.
Defined.

Lemma failing_file_is_passed_over_witness :
  let mapping := default_csv_processor_mapping plain_str_float plain_str_time
                                               plain_float_of_str in
  collect_files plain_to_datetime plain_str_float plain_str_time mapping example_folder
                ["Year to date.CSV"; "Credit Card - 1604_01-01-2025_08-29-2025.csv"] []
  = collect_files plain_to_datetime plain_str_float plain_str_time mapping example_folder
                  ["Credit Card - 1604_01-01-2025_08-29-2025.csv"] [].
Proof.
  intros mapping.
  apply (failing_file_is_passed_over plain_to_datetime plain_str_float plain_str_time
           mapping example_folder [] ["Credit Card - 1604_01-01-2025_08-29-2025.csv"]
           "Year to date.CSV" (CitiCSVProcessor plain_float_of_str) OSError);
    reflexivity.
Defined.

Lemma no_data_raises_value_error_witness :
  let mapping := default_csv_processor_mapping plain_str_float plain_str_time
                                               plain_float_of_str in
  let folder := mkFolder true ["Year to date.CSV"] (fun _ => Raise OSError) in
  let self := mkAnalyzer (fresh_world [Line "3"]) None in
  load_and_process_data plain_to_datetime plain_str_float plain_str_time
                        plain_set_iter plain_argsort plain_dt_strftime
                        mapping folder self
  = (Raises (Exn ValueError), self).
Proof.
  intros mapping folder self.
  apply no_data_raises_value_error.
  constructor; [|constructor].
  exists (CitiCSVProcessor plain_float_of_str). split; [reflexivity|].
  left. now exists OSError.
Defined.

Lemma missing_description_raises_attribute_error_witness :
  let mapping := default_csv_processor_mapping plain_str_float plain_str_time
                                               plain_float_of_str in
  let self := mkAnalyzer (fresh_world [Line "3"]) None in
  let run := load_and_process_data plain_to_datetime plain_str_float plain_str_time
                                   plain_set_iter plain_argsort plain_dt_strftime
                                   mapping folder_with_missing_description self in
  fst run = Raises AttributeError /\ world (snd run) = world self.
Proof.
  intros mapping self.
  apply (missing_description_raises_attribute_error
           plain_to_datetime plain_str_float plain_str_time
           plain_set_iter plain_argsort plain_dt_strftime
           mapping folder_with_missing_description self
           [mkTransaction (CStr "2025-03-01") (CStr "Corner Bakery") (PyFloat.of_Z 12);
            mkTransaction (CStr "2025-03-02") (CFloat S754_nan) (PyFloat.of_Z 7)]
           [0%nat; 1%nat]
           (mkTransaction (CStr "2025-03-02") (CFloat S754_nan) (PyFloat.of_Z 7))).
  - reflexivity.
  - discriminate.
  - reflexivity.
  - reflexivity.
  - simpl. auto.
  - discriminate.
Defined.

Lemma successful_run_shape_witness :
  let mapping := default_csv_processor_mapping plain_str_float plain_str_time
                                               plain_float_of_str in
  let self := mkAnalyzer (fresh_world [Line "3"]) None in
  let run := load_and_process_data plain_to_datetime plain_str_float plain_str_time
                                   plain_set_iter plain_argsort plain_dt_strftime
                                   mapping example_folder self in
  exists df, fst run = Returns df
             /\ combined_data (snd run) = Some df
             /\ later (world self) (world (snd run)).
Proof.
  intros mapping self run.
  assert (exists df self', run = (Returns df, self')) as (df & self' & H)
      by (vm_compute; eauto).
  destruct (successful_run_shape plain_to_datetime plain_str_float plain_str_time
              plain_set_iter plain_argsort plain_dt_strftime
              mapping example_folder self df self' H) as (Hc & Hl & _).
  exists df. fold run in H. rewrite H. auto.
Defined.

Lemma recognized_rows_need_no_terminal_witness :
  let w := mkWorld (mkRuleSet [("Food", ["starbucks"])] (Some "Other")) [] [] None in
  exists categories,
    categorize_rows ["STARBUCKS"; "COSTCO-Pallet"] [PyFloat.of_Z 5; PyFloat.of_Z 250] w
    = (Ok categories, w)
    /\ length categories = 2%nat.
Proof.
  intros w.
  apply (recognized_rows_need_no_terminal
           ["STARBUCKS"; "COSTCO-Pallet"] [PyFloat.of_Z 5; PyFloat.of_Z 250] w).
  constructor; [right; now exists "Food"|].
  constructor; [left; reflexivity | constructor].
Defined.

(** ** The normalizer's names and the key term learned from them *)

Section TidyNames.

#[local] Arguments String.append : simpl nomatch.

Lemma split_token (t : string) : token t -> split t = [t].
Proof.
  intros [Hns Hne]. unfold split. rewrite (split_from_token _ _ Hns). simpl.
  destruct t; [congruence | reflexivity].
Qed.

Lemma split_two_tokens (t1 t2 : string) :
  token t1 -> token t2 -> split (t1 ++ " " ++ t2) = [t1; t2].
Proof.
  intros [Hns1 Hne1] H2. unfold split.
  rewrite (split_from_token_blank "" t1 t2 Hns1). simpl.
  fold (split t2). rewrite (split_token _ H2).
  destruct t1; [congruence | reflexivity].
Qed.

Lemma tidy_empty : tidy "".
Proof. split; [reflexivity | simpl; lia]. Qed.

Lemma tidy_token (t : string) : token t -> tidy t.
Proof. intros H. unfold tidy. rewrite (split_token _ H). split; [reflexivity | simpl; lia]. Qed.

Lemma tidy_no_space (t : string) : no_space t -> tidy t.
Proof.
  intros H. destruct t as [|c t]; [apply tidy_empty|].
  apply tidy_token. split; [exact H | discriminate].
Qed.

Lemma tidy_two_tokens (t1 t2 : string) : token t1 -> token t2 -> tidy (t1 ++ " " ++ t2).
Proof.
  intros H1 H2. unfold tidy. rewrite (split_two_tokens _ _ H1 H2).
  split; [reflexivity | simpl; lia].
Qed.

Lemma split_tokens (s : string) : Forall token (split s).
Proof.
  pose proof (split_from_no_space "" s eq_refl) as H1.
  pose proof (split_from_nonempty "" s) as H2.
  fold (split s) in H1, H2. induction (split s) as [|w ws IH]; [constructor|].
  inversion H1; inversion H2; subst. constructor; [split; assumption | auto].
Qed.

(** A tidy name is empty, a token, or two tokens with a blank between. *)
Lemma tidy_cases (s : string) :
  tidy s ->
  s = "" \/ token s \/ exists t1 t2, token t1 /\ token t2 /\ s = t1 ++ " " ++ t2.
Proof.
  intros [Hs Hlen]. pose proof (split_tokens s) as Ht.
  destruct (split s) as [|t1 [|t2 [|t3 ws]]]; simpl in Hlen; try lia.
  - now left.
  - right. left. inversion Ht as [|? ? H1 _]. simpl in Hs. rewrite Hs. exact H1.
  - right. right. inversion Ht as [|? ? H1 Ht']. inversion Ht' as [|? ? H2 _].
    exists t1, t2. split; [exact H1|]. split; [exact H2 | exact Hs].
Qed.

Lemma no_space_drop (n : nat) (s : string) : no_space s -> no_space (drop n s).
Proof.
  unfold no_space. revert s. induction n as [|n IH]; intros [|c s]; simpl; auto.
  rewrite andb_true_iff. intros [_ Hs]. now apply IH.
Qed.

Lemma lstrip_no_space (s : string) : no_space s -> lstrip s = s.
Proof.
  unfold no_space. destruct s as [|c s]; simpl; [reflexivity|].
  rewrite andb_true_iff, negb_true_iff. now intros [-> _].
Qed.

Lemma rstrip_no_space (s : string) : no_space s -> rstrip s = s.
Proof.
  unfold no_space. induction s as [|c s IH]; simpl; [reflexivity|].
  rewrite andb_true_iff, negb_true_iff. intros [-> Hs]. simpl. now rewrite IH.
Qed.

Lemma strip_no_space (s : string) : no_space s -> strip s = s.
Proof. intros H. unfold strip. now rewrite (lstrip_no_space _ H), (rstrip_no_space _ H). Qed.

Lemma rstrip_before_token (x t : string) : token t -> rstrip (x ++ t) = x ++ t.
Proof.
  intros [Hns Hne]. induction x as [|c x IH]; simpl.
  - now apply rstrip_no_space.
  - rewrite IH.
    assert (is_empty (x ++ t) = false) as ->
        by (destruct x; [destruct t; [congruence | reflexivity] | reflexivity]).
    now rewrite andb_false_r.
Qed.

Lemma strip_two_tokens (t1 t2 : string) :
  token t1 -> token t2 -> strip (t1 ++ " " ++ t2) = t1 ++ " " ++ t2.
Proof.
  intros [Hns1 Hne1] H2. unfold strip.
  assert (lstrip (t1 ++ " " ++ t2) = t1 ++ " " ++ t2) as ->.
  { destruct t1 as [|c t1]; [congruence|]. simpl.
    unfold no_space in Hns1. simpl in Hns1.
    apply andb_true_iff in Hns1 as [Hc _]. apply negb_true_iff in Hc. now rewrite Hc. }
  rewrite <- append_assoc. rewrite (rstrip_before_token _ _ H2). reflexivity.
Qed.

Lemma strip_blank_token (t : string) : token t -> strip (" " ++ t) = t.
Proof.
  intros [Hns Hne]. unfold strip. simpl.
  change (is_space " ") with true. cbv iota.
  now rewrite (lstrip_no_space _ Hns), (rstrip_no_space _ Hns).
Qed.

(** What is left of a token, a blank and more text when the first [n]
    characters are cut: the end of the token and the rest, the blank and the
    rest, or an end of the rest. *)
Lemma drop_two_tokens (n : nat) (t1 t2 : string) :
  no_space t1 ->
  (exists t1', token t1' /\ drop n (t1 ++ " " ++ t2) = t1' ++ " " ++ t2)
  \/ drop n (t1 ++ " " ++ t2) = " " ++ t2
  \/ exists m, drop n (t1 ++ " " ++ t2) = drop m t2.
Proof.
  revert n. induction t1 as [|c t1 IH]; intros n Hns.
  - destruct n as [|m]; [right; left; reflexivity|].
    right. right. now exists m.
  - destruct n as [|n'].
    + left. exists (String c t1). split; [|reflexivity].
      split; [exact Hns | discriminate].
    + simpl. apply IH. unfold no_space in *. simpl in Hns.
      now apply andb_true_iff in Hns as [_ Hns].
Qed.

(** Cutting a prefix off a tidy name and stripping what is left gives a
    tidy name. *)
Lemma tidy_strip_drop (n : nat) (s : string) : tidy s -> tidy (strip (drop n s)).
Proof.
  intros H. destruct (tidy_cases s H) as [-> | [[Hns Hne] | (t1 & t2 & H1 & H2 & ->)]].
  - destruct n; apply tidy_empty.
  - rewrite strip_no_space by now apply no_space_drop.
    now apply tidy_no_space, no_space_drop.
  - destruct (drop_two_tokens n t1 t2 (proj1 H1)) as [(t1' & H1' & ->) | [-> | [m ->]]].
    + rewrite (strip_two_tokens _ _ H1' H2). now apply tidy_two_tokens.
    + rewrite (strip_blank_token _ H2). now apply tidy_token.
    + rewrite strip_no_space by apply no_space_drop, H2.
      apply tidy_no_space, no_space_drop, H2.
Qed.

Lemma tidy_remove_first_prefix (prefixes : list string) (s : string) :
  tidy s -> tidy (remove_first_prefix prefixes s).
Proof.
  intros H. induction prefixes as [|p prefixes IH]; simpl; [exact H|].
  destruct (startswith _ _); [now apply tidy_strip_drop | exact IH].
Qed.

(** The key term of a tidy name occurs in the name, up to case. *)
Lemma tidy_key_term_occurs (name : string) :
  tidy name -> ci_contains name (extract_key_term_for_config name).
Proof.
  intros Hname.
  pose proof (tidy_remove_first_prefix ["sq *"; "tst*"; "sp "; "fsp*"; "6602-"] name Hname)
    as Hclean.
  pose proof (remove_first_prefix_occurs ["sq *"; "tst*"; "sp "; "fsp*"; "6602-"] name)
    as Hocc.
  destruct (tidy_cases _ Hclean) as [E | [Ht | (t1 & t2 & H1 & H2 & E)]].
  - apply single_word_key_term_occurs. unfold meaningful_words_of. rewrite E. simpl. lia.
  - apply single_word_key_term_occurs. unfold meaningful_words_of.
    rewrite (split_token _ Ht). cbn [firstn meaningful_loop].
    destruct (_ && _); simpl; lia.
  - destruct ((2 <? len t1)%nat && negb (isdigit t1)
              && negb (in_list (lower t1) skip_words)) eqn:E1;
      [destruct ((2 <? len t2)%nat && negb (isdigit t2)
                 && negb (in_list (lower t2) skip_words)) eqn:E2|].
    + unfold extract_key_term_for_config. cbv zeta.
      rewrite E, (split_two_tokens _ _ H1 H2). cbn [firstn meaningful_loop].
      rewrite E1. cbn [app length Nat.leb]. rewrite E2. cbn [app length Nat.leb Nat.ltb join].
      rewrite E in Hocc. apply lower_occurs_ci in Hocc.
      now rewrite !lower_app in Hocc.
    + apply single_word_key_term_occurs. unfold meaningful_words_of.
      rewrite E, (split_two_tokens _ _ H1 H2). cbn [firstn meaningful_loop].
      rewrite E1. cbn [app length Nat.leb]. rewrite E2. simpl. lia.
    + apply single_word_key_term_occurs. unfold meaningful_words_of.
      rewrite E, (split_two_tokens _ _ H1 H2). cbn [firstn meaningful_loop].
      rewrite E1.
      destruct ((2 <? len t2)%nat && negb (isdigit t2)
                && negb (in_list (lower t2) skip_words)); simpl; lia.
Qed.

End TidyNames.

Section NormalizedNames.

Lemma tidy_join (l : list string) :
  Forall token l -> (length l <= 2)%nat -> tidy (join " " l).
Proof.
  intros Hl Hlen. destruct l as [|x [|y [|z l]]]; simpl in Hlen; try lia.
  - apply tidy_empty.
  - inversion Hl; subst. now apply tidy_token.
  - inversion Hl as [|? ? Hx Hl']; subst. inversion Hl' as [|? ? Hy _]; subst.
    now apply tidy_two_tokens.
Qed.

Lemma unknown_merchant_name_tidy (raw_description : string) :
  split (remove_prefixes ["SQ *"; "TST*"; "SP "; "FSP*"; "6602-"] (strip raw_description))
  <> [] ->
  tidy (unknown_merchant_name raw_description).
Proof.
  intros Hne. unfold unknown_merchant_name.
  set (words := split _) in *.
  pose proof (split_tokens (remove_prefixes ["SQ *"; "TST*"; "SP "; "FSP*"; "6602-"]
                                           (strip raw_description))) as Hw.
  fold words in Hw.
  destruct (0 <? length (clean_words_loop words []))%nat.
  - apply tidy_join; [|rewrite length_take; lia].
    apply Forall_take. apply Forall_and. split.
    + apply clean_words_loop_no_space; [|constructor].
      eapply Forall_impl; [exact Hw | now intros ? []].
    + apply clean_words_loop_nonempty. constructor.
  - destruct words as [|w0 words']; [congruence|].
    inversion Hw as [|? ? [Hns _] _]; subst.
    now apply tidy_no_space, no_space_take, no_space_title_from.
Qed.

(** Whenever a token is left once the processor prefixes are stripped, the
    normalizer's name is tidy. *)
Lemma extract_merchant_name_tidy (raw_description : string) :
  split (remove_prefixes ["SQ *"; "TST*"; "SP "; "FSP*"; "6602-"] (strip raw_description))
  <> [] ->
  tidy (extract_merchant_name raw_description).
Proof.
  intros Hne. unfold extract_merchant_name. cbv zeta.
  repeat match goal with
         | |- tidy (if ?b then String _ _ else _) =>
             destruct b; [split; vm_compute; [reflexivity | lia]|]
         end.
  destruct (py_in "spokane" _); [|now apply unknown_merchant_name_tidy].
  repeat match goal with
         | |- tidy (if ?b then String _ _ else _) =>
             destruct b; [split; vm_compute; [reflexivity | lia]|]
         end.
  split; vm_compute; [reflexivity | lia].
Qed.

End NormalizedNames.

(** X22. The key term learned from a name the normalizer returned occurs in
    that name, up to case, whenever a token was left of the raw description
    once the processor prefixes were stripped: the keyword written to the
    rule set matches the merchant it was learned from. *)
Theorem normalized_name_holds_its_key_term (raw_description : string) :
  split (remove_prefixes ["SQ *"; "TST*"; "SP "; "FSP*"; "6602-"] (strip raw_description))
  <> [] ->
  ci_contains (extract_merchant_name raw_description)
              (extract_key_term_for_config (extract_merchant_name raw_description)).
Proof.
  intros Hne. now apply tidy_key_term_occurs, extract_merchant_name_tidy.
Qed.

(** X23. In the pipeline a merchant is asked about once: for a raw
    description of which a token is left, when its normalized name reaches
    the prompt and a line selecting [C] is typed, the call returns [C], and
    the same call made again on the world it left returns [C] by rule
    matching, without reading the terminal, whether or not the rule store
    file could be written. *)
Theorem normalized_merchant_is_asked_about_once
    (raw_description : string) (amount : float) (w : World)
    (invalid : list string) (line : string) (rest : list tty_event) (C : string) :
  split (remove_prefixes ["SQ *"; "TST*"; "SP "; "FSP*"; "6602-"] (strip raw_description))
  <> [] ->
  let name := extract_merchant_name raw_description in
  ~ override_applies name amount ->
  no_keyword_matches (categories (categorization_config w)) name ->
  Forall invalid_line invalid ->
  stdin w = (map Line invalid ++ Line line :: rest)%list ->
  selects line C ->
  exists w',
    categorize_transaction_with_amount name amount w = (Ok C, w')
    /\ stdin w' = rest
    /\ categorize_transaction_with_amount name amount w' = (Ok C, w').
Proof.
  intros Hne name Ho Hnone Hinv Hin Hsel.
  pose proof (normalized_name_occurs := tidy_key_term_occurs name
                (extract_merchant_name_tidy raw_description Hne)).
  apply ci_contains_iff in normalized_name_occurs.
  apply not_override in Ho. apply match_rules_None in Hnone.
  exists (after_update C (extract_key_term_for_config name) (set_stdin rest w)).
  split; [|split; [reflexivity|]].
  - unfold categorize_transaction_with_amount. rewrite Ho.
    unfold mbind, M_bind, get_config. rewrite Hnone.
    unfold prompt_user_for_category.
    rewrite Hin, prompt_loop_skip_invalid by assumption.
    now apply prompt_loop_selects.
  - apply categorize_by_rule; [assumption|].
    now apply match_rules_add_keyword.
Qed.

Lemma normalized_name_holds_its_key_term_witness :
  ci_contains (extract_merchant_name "SQ *JOE'S diner 206-555-0100 WA")
              (extract_key_term_for_config
                 (extract_merchant_name "SQ *JOE'S diner 206-555-0100 WA")).
Proof.
  apply normalized_name_holds_its_key_term. vm_compute. discriminate.
Defined.

Lemma normalized_merchant_is_asked_about_once_witness :
  let w := mkWorld (load_categorization_config FileNotFound)
                   [Line "1"; Line "7"] [WriteFails None] None in
  exists w',
    categorize_transaction_with_amount
      (extract_merchant_name "SQ *JOE'S diner 206-555-0100 WA") (PyFloat.of_Z 30) w
    = (Ok "Food", w')
    /\ stdin w' = [Line "7"]
    /\ categorize_transaction_with_amount
         (extract_merchant_name "SQ *JOE'S diner 206-555-0100 WA") (PyFloat.of_Z 30) w'
       = (Ok "Food", w').
Proof.
  intros w.
  apply (normalized_merchant_is_asked_about_once
           "SQ *JOE'S diner 206-555-0100 WA" (PyFloat.of_Z 30) w [] "1" [Line "7"] "Food").
  - vm_compute. discriminate.
  - intros H. apply costco_override_iff in H. vm_compute in H. discriminate.
  - apply match_rules_None. reflexivity.
  - constructor.
  - reflexivity.
  - exists 1%Z. split; [reflexivity|]. split; [lia | reflexivity].
Defined.


